(** * The config-rollout controller (dummy-controller.py)

    A shallow embedding of the webhook handler class [ConfigController]:
    its two entry points [do_GET] and [do_POST], the three POST handlers
    and the three helpers they call, and the base class's choice between
    them, followed by the properties of the rollout protocol that hold of
    them.

    Python values are modelled as the interpreter holds them after
    [json.loads]: strings are sequences of code points, numbers are
    unbounded integers or binary64 floats, objects are insertion-ordered
    association lists.  The handlers run in a monad that threads the
    process state (random generator, clock, log, bytes sent to the client)
    and carries Python exceptions; state written before an exception is
    raised is kept, as in Python.

    Layout: values and exceptions; the process state, the monad and the
    [random] module; the controller, function by function; the vocabulary
    the statements use to read a run and a sequence of runs; sample
    inputs; then the properties
    (labelled C for the rollout protocol's stated properties, X for
    further facts about the code), and runs of each on a sample input. *)

From Stdlib Require Import Ascii String.
From Stdlib Require Import ZArith NArith List Bool Lia.
From Stdlib Require Import DecimalString.
From Stdlib Require Import SpecFloat.
Import ListNotations.

Local Open Scope Z_scope.

(** ** Python strings *)

(** A Python [str] is a sequence of Unicode code points; [len] counts
    code points, not bytes. *)
Definition char := N.
Definition str := list char.

(** The code points of an ASCII literal of the source. *)
Definition lit (s : string) : str :=
  map N_of_ascii (list_ascii_of_string s).

Fixpoint str_eqb (a b : str) : bool :=
  match a, b with
  | [], [] => true
  | x :: a', y :: b' => N.eqb x y && str_eqb a' b'
  | _, _ => false
  end.

(** [sep.join(parts)] *)
Fixpoint join (sep : str) (parts : list str) : str :=
  match parts with
  | [] => []
  | [p] => p
  | p :: rest => p ++ sep ++ join sep rest
  end.

(** [str(z)] for an [int] *)
Definition int_repr (z : Z) : str :=
  lit (NilZero.string_of_int (Z.to_int z)).

(** ** Values decoded by [json.loads] *)

#[local] Set Warnings "-register-all".
Inductive json : Type :=
| JNull
| JBool (b : bool)
| JInt (z : Z)
| JFloat (f : spec_float)
| JStr (s : str)
| JList (l : list json)
| JDict (d : list (str * json)).

(** A decoded object, in insertion order.  [json.loads] never yields a
    key twice. *)
Definition dict := list (str * json).

(** First binding of key [k], as [dict.get] finds it. *)
Fixpoint dict_get (d : dict) (k : str) : option json :=
  match d with
  | [] => None
  | (k', v) :: rest => if str_eqb k' k then Some v else dict_get rest k
  end.

(** The name Python reports for the type of a value, [type(v).__name__]. *)
Definition type_name (v : json) : str :=
  match v with
  | JNull => lit "NoneType"
  | JBool _ => lit "bool"
  | JInt _ => lit "int"
  | JFloat _ => lit "float"
  | JStr _ => lit "str"
  | JList _ => lit "list"
  | JDict _ => lit "dict"
  end.

(** Truth value of a value in a boolean context ([not v] is its negation):
    [None], [False], zero, and empty strings and containers are false. *)
Definition truthy (v : json) : bool :=
  match v with
  | JNull => false
  | JBool b => b
  | JInt z => negb (z =? 0)
  | JFloat (S754_zero _) => false
  | JFloat _ => true
  | JStr [] => false
  | JStr _ => true
  | JList [] => false
  | JList _ => true
  | JDict [] => false
  | JDict _ => true
  end.

(** ** Exceptions *)

Inductive exn : Type :=
| AttributeError (msg : str)
| TypeError (msg : str)
| RequestFault (msg : str).
  (* anything raised while reading and decoding the request body *)

(** [str(e)] *)
Definition exn_str (e : exn) : str :=
  match e with
  | AttributeError m | TypeError m | RequestFault m => m
  end.

Inductive result (A : Type) : Type :=
| Ok (a : A)
| Raise (e : exn).
Arguments Ok {A} a.
Arguments Raise {A} e.

(** [len(v)]: defined on strings, lists and dicts only. *)
Definition py_len (v : json) : result Z :=
  match v with
  | JStr s => Ok (Z.of_nat (length s))
  | JList l => Ok (Z.of_nat (length l))
  | JDict d => Ok (Z.of_nat (length d))
  | _ => Raise (TypeError (lit "object of type '" ++ type_name v ++ lit "' has no len()"))
  end.

(** [data.get(key, default)]: only a dict has the method. *)
Definition py_get (data : json) (key : str) (default : json) : result json :=
  match data with
  | JDict d =>
      Ok (match dict_get d key with Some v => v | None => default end)
  | _ => Raise (AttributeError
                  (lit "'" ++ type_name data ++ lit "' object has no attribute 'get'"))
  end.

(** ** The interpreter's printers *)

(** [repr] of a float (shortest round-tripping decimal) and of a string
    (quoting and escaping) are the interpreter's; the handlers only pass
    their output through, so they are taken as given. *)
Class Runtime : Type := {
  float_repr : spec_float -> str;
  str_repr : str -> str
}.

Section Printers.
Context {rt : Runtime}.

(** [repr(v)] *)
Fixpoint py_repr (v : json) : str :=
  match v with
  | JNull => lit "None"
  | JBool true => lit "True"
  | JBool false => lit "False"
  | JInt z => int_repr z
  | JFloat f => float_repr f
  | JStr s => str_repr s
  | JList l => lit "[" ++ join (lit ", ") (map py_repr l) ++ lit "]"
  | JDict d =>
      lit "{"
      ++ join (lit ", ")
           (map (fun kv => let '(k, x) := kv in
                           str_repr k ++ lit ": " ++ py_repr x) d)
      ++ lit "}"
  end.

(** [str(v)], which is what an f-string substitutes for [{v}]: a string
    stands for itself, everything else for its [repr]. *)
Definition py_str (v : json) : str :=
  match v with
  | JStr s => s
  | _ => py_repr v
  end.

End Printers.

(** ** Process state and the handler monad *)

Inductive level : Type := INFO | ERROR.

(** What a handler sends to the client, call by call. *)
Inductive out_event : Type :=
| SendResponse (code : Z)
| SendHeader (name value : str)
| EndHeaders
| WfileWrite (payload : json).
  (* [self.wfile.write(json.dumps(payload).encode())] *)

(** [rng] is the sequence of raw draws the [random] module will hand out
    next (the generator itself is library code; each call below consumes
    one draw and reduces it to its range); [clock] counts the seconds
    slept; [logs] and [wire] grow at the end. *)
Record world : Type := {
  rng : nat -> Z;
  clock : Z;
  logs : list (level * str);
  wire : list out_event
}.

Definition M (A : Type) : Type := world -> result A * world.

Definition ret {A} (a : A) : M A := fun w => (Ok a, w).

Definition bind {A B} (m : M A) (k : A -> M B) : M B :=
  fun w =>
    match m w with
    | (Ok a, w') => k a w'
    | (Raise e, w') => (Raise e, w')
    end.

(** A pure computation that may raise. *)
Definition lift {A} (r : result A) : M A := fun w => (r, w).

(** [try: body except Exception as e: handler(e)] *)
Definition try_except {A} (body : M A) (handler : exn -> M A) : M A :=
  fun w =>
    match body w with
    | (Ok a, w') => (Ok a, w')
    | (Raise e, w') => handler e w'
    end.

Declare Scope py_scope.
Delimit Scope py_scope with py.
Notation "x <- m ;; k" := (bind m (fun x => k))
  (at level 100, m at next level, right associativity) : py_scope.
Notation "m ;; k" := (bind m (fun _ => k))
  (at level 100, right associativity) : py_scope.
Local Open Scope py_scope.

Definition sleep (seconds : Z) : M unit :=
  fun w => (Ok tt, {| rng := rng w; clock := clock w + seconds;
                      logs := logs w; wire := wire w |}).

Definition log (l : level) (msg : str) : M unit :=
  fun w => (Ok tt, {| rng := rng w; clock := clock w;
                      logs := logs w ++ [(l, msg)]; wire := wire w |}).

Definition logger_info := log INFO.
Definition logger_error := log ERROR.

Definition emit (e : out_event) : M unit :=
  fun w => (Ok tt, {| rng := rng w; clock := clock w;
                      logs := logs w; wire := wire w ++ [e] |}).

Definition send_response (code : Z) : M unit := emit (SendResponse code).
Definition send_header (name value : str) : M unit := emit (SendHeader name value).
Definition end_headers : M unit := emit EndHeaders.
Definition wfile_write (payload : json) : M unit := emit (WfileWrite payload).

(** *** The [random] module *)

Definition next_draw : M Z :=
  fun w => (Ok (rng w O),
            {| rng := fun n => rng w (S n); clock := clock w;
               logs := logs w; wire := wire w |}).

Definition prec : Z := 53.
Definition emax : Z := 1024.

(** The binary64 float with value [m * 2^e]. *)
Definition float_of (m e : Z) : spec_float := binary_normalize prec emax m e false.

(** [random.random()]: a multiple of [2^-53] in [[0, 1)]. *)
Definition random_random : M spec_float :=
  k <- next_draw ;;
  ret (float_of (k mod 2 ^ 53) (-53)).

(** [random._randbelow(n)] for [n > 0] *)
Definition randbelow (n : Z) : M Z :=
  k <- next_draw ;;
  ret (k mod n).

(** [random.randint(a, b)]: [a + randbelow(b - a + 1)] *)
Definition random_randint (a b : Z) : M Z :=
  r <- randbelow (b - a + 1) ;;
  ret (a + r).

(** [random.choice(seq)]: [seq[randbelow(len(seq))]] *)
Definition random_choice (seq : list str) : M str :=
  i <- randbelow (Z.of_nat (length seq)) ;;
  ret (nth (Z.to_nat i) seq []).

(** [random.uniform(a, b)] on integer bounds: [a + (b - a) * random()],
    in binary64 arithmetic. *)
Definition random_uniform (a b : Z) : M spec_float :=
  u <- random_random ;;
  ret (SFadd prec emax (float_of a 0) (SFmul prec emax (float_of (b - a) 0) u)).

(** The float literals [0.9] and [0.95]. *)
Definition float_0_9 : spec_float := S754_finite false 8106479329266893 (-53).
Definition float_0_95 : spec_float := S754_finite false 8556839292003942 (-53).

(** ** Requests *)

(** The two methods the class defines a [do_] handler for. *)
Inductive method : Type := GET | POST.

(** [body] is the outcome of the first three lines of every POST handler,
    [json.loads(self.rfile.read(int(self.headers['Content-Length'])).decode('utf-8'))]:
    the decoded value, or the exception raised by a missing or non-numeric
    Content-Length, by bytes that are not UTF-8, or by text that is not JSON. *)
Record request : Type := {
  command : method;
  path : str;
  body : result json
}.

Definition read_json (req : request) : M json := lift (body req).

Definition content_type : str := lit "Content-type".
Definition application_json : str := lit "application/json".

(** ** The controller *)

Section Controller.
Context {rt : Runtime}.

Definition unknown : json := JStr (lit "unknown").

Definition do_GET (req : request) : M unit :=
  if str_eqb (path req) (lit "/health") then
    send_response 200 ;;
    send_header content_type application_json ;;
    end_headers ;;
    wfile_write (JDict [ (lit "status", JStr (lit "healthy"));
                         (lit "service", JStr (lit "config-controller")) ])
  else if str_eqb (path req) (lit "/metrics") then
    send_response 200 ;;
    send_header content_type application_json ;;
    end_headers ;;
    cpu_usage <- random_uniform 10 80 ;;
    memory_usage <- random_uniform 20 90 ;;
    response_time <- random_uniform 100 500 ;;
    error_rate <- random_uniform 0 5 ;;
    throughput <- random_uniform 1000 5000 ;;
    active_rollouts <- random_randint 1 10 ;;
    devices_configured <- random_randint 50 200 ;;
    wfile_write (JDict [ (lit "cpu_usage", JFloat cpu_usage);
                         (lit "memory_usage", JFloat memory_usage);
                         (lit "response_time", JFloat response_time);
                         (lit "error_rate", JFloat error_rate);
                         (lit "throughput", JFloat throughput);
                         (lit "active_rollouts", JInt active_rollouts);
                         (lit "devices_configured", JInt devices_configured) ])
  else
    send_response 404 ;;
    end_headers.

Definition validate_config (data : json) : M bool :=
  sleep 1 ;;
  config_version <- lift (py_get data (lit "configVersion") (JStr [])) ;;
  if negb (truthy config_version) then ret false
  else
    n <- lift (py_len config_version) ;;
    if n <? 3 then ret false
    else
      u <- random_random ;;
      ret (SFltb u float_0_9).

Definition send_config_to_device (device_id config_data : json) : M bool :=
  sleep 2 ;;
  u <- random_random ;;
  let success := SFltb u float_0_95 in
  (if success then
     logger_info ([226; 339; 8230]%N
                  ++ lit " Config successfully applied to device "
                  ++ py_str device_id)
   else
     logger_error ([226; 338]%N
                   ++ lit " Failed to apply config to device "
                   ++ py_str device_id)) ;;
  ret success.

Definition get_rollout_status (rollout_id : json) : M json :=
  phase <- random_choice [lit "Progressing"; lit "Completed"; lit "Paused"] ;;
  current_step <- random_randint 1 3 ;;
  completed_devices <- random_randint 1 10 ;;
  ret (JDict [ (lit "rolloutId", rollout_id);
               (lit "phase", JStr phase);
               (lit "currentStep", JInt current_step);
               (lit "totalSteps", JInt 3);
               (lit "completedDevices", JInt completed_devices);
               (lit "totalDevices", JInt 10);
               (lit "message",
                JStr (lit "Rollout " ++ py_str rollout_id ++ lit " is progressing")) ]).

(** The [except Exception as e] block shared, up to the log prefix, by the
    three POST handlers. *)
Definition report_error (prefix : str) (e : exn) : M unit :=
  logger_error (prefix ++ exn_str e) ;;
  send_response 500 ;;
  send_header content_type application_json ;;
  end_headers ;;
  wfile_write (JDict [ (lit "status", JStr (lit "error"));
                       (lit "message", JStr (exn_str e)) ]).

Definition handle_validation (req : request) : M unit :=
  try_except
    (data <- read_json req ;;
     logged <- lift (py_get data (lit "configVersion") unknown) ;;
     logger_info (lit "Validating config: " ++ py_str logged) ;;
     success <- validate_config data ;;
     response <-
       (if success then
          send_response 200 ;;
          config_version <- lift (py_get data (lit "configVersion") unknown) ;;
          ret (JDict [ (lit "status", JStr (lit "success"));
                       (lit "message", JStr (lit "Configuration validation passed"));
                       (lit "configVersion", config_version) ])
        else
          send_response 400 ;;
          config_version <- lift (py_get data (lit "configVersion") unknown) ;;
          ret (JDict [ (lit "status", JStr (lit "failure"));
                       (lit "message", JStr (lit "Configuration validation failed"));
                       (lit "configVersion", config_version) ])) ;;
     send_header content_type application_json ;;
     end_headers ;;
     wfile_write response)
    (report_error (lit "Validation error: ")).

Definition handle_send_config (req : request) : M unit :=
  try_except
    (data <- read_json req ;;
     device_id <- lift (py_get data (lit "deviceId") unknown) ;;
     config_data <- lift (py_get data (lit "config") (JDict [])) ;;
     logged <- lift (py_get config_data (lit "name") unknown) ;;
     logger_info (lit "Sending config to device " ++ py_str device_id
                  ++ lit ": " ++ py_str logged) ;;
     success <- send_config_to_device device_id config_data ;;
     response <-
       (if success then
          send_response 200 ;;
          config_name <- lift (py_get config_data (lit "name") unknown) ;;
          ret (JDict [ (lit "status", JStr (lit "success"));
                       (lit "message",
                        JStr (lit "Configuration sent to device " ++ py_str device_id));
                       (lit "deviceId", device_id);
                       (lit "configName", config_name) ])
        else
          send_response 500 ;;
          ret (JDict [ (lit "status", JStr (lit "failure"));
                       (lit "message",
                        JStr (lit "Failed to send config to device " ++ py_str device_id));
                       (lit "deviceId", device_id) ])) ;;
     send_header content_type application_json ;;
     end_headers ;;
     wfile_write response)
    (report_error (lit "Send config error: ")).

Definition handle_rollout_status (req : request) : M unit :=
  try_except
    (data <- read_json req ;;
     rollout_id <- lift (py_get data (lit "rolloutId") unknown) ;;
     status <- get_rollout_status rollout_id ;;
     send_response 200 ;;
     send_header content_type application_json ;;
     end_headers ;;
     wfile_write status)
    (report_error (lit "Status error: ")).

Definition do_POST (req : request) : M unit :=
  if str_eqb (path req) (lit "/validate") then handle_validation req
  else if str_eqb (path req) (lit "/send-config") then handle_send_config req
  else if str_eqb (path req) (lit "/rollout-status") then handle_rollout_status req
  else
    send_response 404 ;;
    end_headers.

(** The base class calls the method named after the request's command. *)
Definition handle (req : request) : M unit :=
  match command req with
  | GET => do_GET req
  | POST => do_POST req
  end.

End Controller.

(** ** The base class's dispatch *)

(** A parsed request as [BaseHTTPRequestHandler.handle_one_request] holds
    it: [command_name] is [self.command], the method word of the request
    line as the client sent it; [target] is [self.path]; [content] is what
    reading the body would give (see [request]). *)
Record request_line : Type := {
  command_name : str;
  target : str;
  content : result json
}.

(** What [send_error] of the base class puts on the wire, as far as it
    matters here: the status code, the Content-Type of the error page
    ([error_content_type]) and whether the page itself is written (it is
    not for a HEAD).  The page is HTML text from the library's template.
    The log line [send_error] asks for goes through [log_message], which
    the class overrides to do nothing. *)
Record error_reply : Type := {
  reply_code : Z;
  reply_content_type : str;
  reply_has_body : bool
}.

(** Who answers a request: a method of the class, or the base class on its
    own. *)
Inductive served : Type :=
| ByClass (run : M unit)
| ByBaseClass (reply : error_reply).

Definition method_name (m : method) : str :=
  match m with
  | GET => lit "GET"
  | POST => lit "POST"
  end.

Section BaseClass.
Context {rt : Runtime}.

(** [handle_one_request] looks up the method ['do_' + self.command] and
    calls it; the class defines [do_GET] and [do_POST] and no other, and
    for a command without a method the base class sends
    [send_error(501, "Unsupported method (...)")] itself. *)
Definition handle_one_request (line : request_line) : served :=
  if str_eqb (command_name line) (lit "GET") then
    ByClass (do_GET {| command := GET; path := target line;
                       body := content line |})
  else if str_eqb (command_name line) (lit "POST") then
    ByClass (do_POST {| command := POST; path := target line;
                        body := content line |})
  else
    ByBaseClass {| reply_code := 501;
                   reply_content_type := lit "text/html;charset=utf-8";
                   reply_has_body :=
                     negb (str_eqb (command_name line) (lit "HEAD")) |}.

End BaseClass.

(** ** Reading a run *)

(** A complete JSON response as it appears on the wire. *)
Definition json_response (code : Z) (payload : json) : list out_event :=
  [ SendResponse code;
    SendHeader content_type application_json;
    EndHeaders;
    WfileWrite payload ].

(** [data.get(key, default)] on a dict, as a total function. *)
Definition get_or (d : dict) (key : str) (default : json) : json :=
  match dict_get d key with
  | Some v => v
  | None => default
  end.

(** The value [random.random()] returns on the next draw of [w]. *)
Definition next_random (w : world) : spec_float :=
  float_of (rng w O mod 2 ^ 53) (-53).

(** The acceptance policy of [validate_config]: [random.random() < 0.9]. *)
Definition acceptance_policy (w : world) : bool :=
  SFltb (next_random w) float_0_9.

(** The delivery policy of [send_config_to_device]: [random.random() < 0.95]. *)
Definition delivery_policy (w : world) : bool :=
  SFltb (next_random w) float_0_95.

(** The "config" object of a /send-config body the handler can dispatch:
    the field may be missing (the handler substitutes an empty object) but
    when present it must itself be an object. *)
Definition config_of (d : dict) : option dict :=
  match dict_get d (lit "config") with
  | None => Some []
  | Some (JDict c) => Some c
  | Some _ => None
  end.

(** The phases of a rollout. *)
Definition phases : list str := [lit "Progressing"; lit "Paused"; lit "Completed"].

(** The exception a POST handler meets before it has done anything: the
    one raised while reading the body, or the [AttributeError] of the
    first [data.get] when the decoded body is not an object. *)
Definition body_fault (b : result json) : option exn :=
  match b with
  | Raise e => Some e
  | Ok (JDict _) => None
  | Ok other =>
      Some (AttributeError
              (lit "'" ++ type_name other ++ lit "' object has no attribute 'get'"))
  end.

(** The values the handlers give the "status" field of a response. *)
Definition status_values : list str := [lit "success"; lit "failure"; lit "error"].

Definition method_eqb (a b : method) : bool :=
  match a, b with
  | GET, GET | POST, POST => true
  | _, _ => false
  end.

(** The endpoints the server announces at start-up. *)
Definition endpoints : list (method * str) :=
  [ (GET, lit "/health"); (GET, lit "/metrics");
    (POST, lit "/validate"); (POST, lit "/send-config");
    (POST, lit "/rollout-status") ].

Definition recognized (req : request) : bool :=
  existsb (fun ep => method_eqb (command req) (fst ep)
                     && str_eqb (path req) (snd ep)) endpoints.

(** A request line that names one of the endpoints. *)
Definition is_endpoint (line : request_line) : Prop :=
  exists m : method,
    command_name line = method_name m /\ In (m, target line) endpoints.

(** The answer "404 with an empty body": the class is reached and all it
    sends is the status line and the end of the headers. *)
Definition bare_404 (s : served) : Prop :=
  exists run : M unit,
    s = ByClass run /\
    forall w : world,
      wire (snd (run w)) = wire w ++ [SendResponse 404; EndHeaders].

(** The world once [k] draws have been consumed. *)
Definition skip_draws (k : nat) (w : world) : world :=
  {| rng := fun n => rng w (k + n)%nat; clock := clock w;
     logs := logs w; wire := wire w |}.

(** What the next three draws of [w] make of a rollout: the phase picked
    by [random.choice], and the two [random.randint] results. *)
Definition drawn_phase (w : world) : str :=
  nth (Z.to_nat (rng w 0%nat mod 3))
      [lit "Progressing"; lit "Completed"; lit "Paused"] [].
Definition drawn_step (w : world) : Z := 1 + rng w 1%nat mod 3.
Definition drawn_devices (w : world) : Z := 1 + rng w 2%nat mod 10.

Section Views.
Context {rt : Runtime}.

(** The record [get_rollout_status] builds from given choices. *)
Definition rollout_record (rollout_id : json) (phase : str) (step devices : Z) : json :=
  JDict [ (lit "rolloutId", rollout_id);
          (lit "phase", JStr phase);
          (lit "currentStep", JInt step);
          (lit "totalSteps", JInt 3);
          (lit "completedDevices", JInt devices);
          (lit "totalDevices", JInt 10);
          (lit "message",
           JStr (lit "Rollout " ++ py_str rollout_id ++ lit " is progressing")) ].

End Views.

(** ** Sample inputs *)

(** The sample runs format strings only, for which [py_str] consults
    neither printer of the runtime; the instance that prints nothing will
    do for them. *)
Definition null_runtime : Runtime :=
  {| float_repr := fun _ => []; str_repr := fun _ => [] |}.

(** A fresh process whose generator will hand out [draws]. *)
Definition fresh (draws : nat -> Z) : world :=
  {| rng := draws; clock := 0; logs := []; wire := [] |}.

Definition post (p : string) (payload : json) : request :=
  {| command := POST; path := lit p; body := Ok payload |}.

(** [random.random()] is 0.0 on draw 0 and 1 - 2^-53 on draw 2^53 - 1. *)
Definition lucky : world := fresh (fun _ => 0).
Definition unlucky : world := fresh (fun _ => 2 ^ 53 - 1).
Definition counting : world := fresh Z.of_nat.

(** Draws 1, 0, 0: [random.choice] picks "Completed", both [randint]s 1. *)
Definition completing : world := fresh (fun n => nth n [1; 0; 0] 0).

Definition validate_x : request :=
  post "/validate" (JDict [ (lit "configVersion", JStr (lit "x")) ]).

Definition validate_v123 : request :=
  post "/validate" (JDict [ (lit "configVersion", JStr (lit "v1.2.3")) ]).

Definition send_dev42 : request :=
  post "/send-config"
    (JDict [ (lit "deviceId", JStr (lit "dev-42"));
             (lit "config", JDict [ (lit "name", JStr (lit "net-profile-1")) ]) ]).

Definition send_empty : request := post "/send-config" (JDict []).

Definition status_r1 : request :=
  post "/rollout-status" (JDict [ (lit "rolloutId", JStr (lit "r-1")) ]).

Definition validate_5 : request :=
  post "/validate" (JDict [ (lit "configVersion", JInt 5) ]).

(** A POST /validate whose body is not JSON. *)
Definition not_json : exn :=
  RequestFault (lit "Expecting value: line 1 column 1 (char 0)").

Definition validate_garbage : request :=
  {| command := POST; path := lit "/validate"; body := Raise not_json |}.

(** A process that has been running: its clock, log and wire are not
    empty; its generator is that of [lucky]. *)
Definition busy : world :=
  {| rng := fun _ => 0; clock := 100;
     logs := [ (INFO, lit "earlier") ];
     wire := [ SendResponse 404; EndHeaders ] |}.

(** Draws 2^52, 2^52 + 1, ...: [random.random()] is a little over 0.5. *)
Definition halfway : world := fresh (fun n => 2 ^ 52 + Z.of_nat n).

Definition send_null_config : request :=
  post "/send-config"
    (JDict [ (lit "deviceId", JStr (lit "dev-42")); (lit "config", JNull) ]).

Definition get_metrics : request :=
  {| command := GET; path := lit "/metrics"; body := Raise not_json |}.

(** PUT /nowhere, and GET /unknown-path as a request line. *)
Definition put_nowhere : request_line :=
  {| command_name := lit "PUT"; target := lit "/nowhere";
     content := Raise (RequestFault []) |}.

Definition get_unknown_line : request_line :=
  {| command_name := lit "GET"; target := lit "/unknown-path";
     content := Raise (RequestFault []) |}.

Definition get_unknown : request :=
  {| command := GET; path := lit "/unknown-path"; body := Raise not_json |}.

(** ** Whole runs *)

(** The codes an endpoint may answer with. *)
Definition allowed_codes (req : request) : list Z :=
  match command req with
  | GET => [200]
  | POST =>
      if str_eqb (path req) (lit "/validate") then [200; 400; 500]
      else [200; 500]
  end.

(** The structural rule of [validate_config] on a decoded object: the
    configVersion is there, is not empty, and has at least three items. *)
Definition passes_structure (d : dict) : bool :=
  match dict_get d (lit "configVersion") with
  | None => false
  | Some v =>
      truthy v && match py_len v with
                  | Ok n => negb (n <? 3)
                  | Raise _ => false
                  end
  end.

(** The seconds a request keeps its handler asleep. *)
Definition seconds_slept (req : request) : Z :=
  match command req, body req with
  | POST, Ok (JDict d) =>
      if str_eqb (path req) (lit "/validate") then 1
      else if str_eqb (path req) (lit "/send-config") then
        match config_of d with Some _ => 2 | None => 0 end
      else 0
  | _, _ => 0
  end.

(** The draws a request takes from the generator. *)
Definition draws_taken (req : request) : nat :=
  match command req with
  | GET =>
      if str_eqb (path req) (lit "/health") then 0
      else if str_eqb (path req) (lit "/metrics") then 7
      else 0
  | POST =>
      match body req with
      | Ok (JDict d) =>
          if str_eqb (path req) (lit "/validate") then
            if passes_structure d then 1 else 0
          else if str_eqb (path req) (lit "/send-config") then
            match config_of d with Some _ => 1 | None => 0 end
          else if str_eqb (path req) (lit "/rollout-status") then 3
          else 0
      | _ => 0
      end
  end%nat.

(** [random.uniform(a, b)] on the draw [k]. *)
Definition uniform_value (a b k : Z) : spec_float :=
  SFadd prec emax (float_of a 0)
    (SFmul prec emax (float_of (b - a) 0) (float_of (k mod 2 ^ 53) (-53))).

Section Runs.
Context {rt : Runtime}.

(** The state in which a request leaves a freshly started process whose
    generator will hand out [draws]. *)
Definition effect (req : request) (draws : nat -> Z) : world :=
  snd (handle req (fresh draws)).

(** One process handling requests one after the other. *)
Fixpoint handle_each (reqs : list request) : M unit :=
  match reqs with
  | [] => ret tt
  | req :: rest => handle req ;; handle_each rest
  end.

(** The prefixes under which the three POST handlers log a fault. *)
Definition error_prefixes : list str :=
  [lit "Validation error: "; lit "Send config error: "; lit "Status error: "].

(** The response a request may get: a bare 404 off the endpoints, one JSON
    response with a code the endpoint allows on them. *)
Definition answers (req : request) (response : list out_event) : Prop :=
  if recognized req then
    exists code payload,
      response = json_response code payload /\ In code (allowed_codes req)
  else response = [SendResponse 404; EndHeaders].

End Runs.

(** ** Proof tools *)

(** Unfolding of the monadic plumbing, for proofs by symbolic execution. *)
Ltac run_handler :=
  cbv [handle do_GET do_POST
       handle_validation handle_send_config handle_rollout_status
       validate_config send_config_to_device get_rollout_status report_error
       try_except bind ret lift read_json
       sleep log logger_info logger_error emit
       send_response send_header end_headers wfile_write
       random_random random_randint random_choice random_uniform
       randbelow next_draw
       py_get json_response].

#[local] Arguments lit : simpl never.
#[local] Arguments next_random : simpl never.
#[local] Arguments acceptance_policy : simpl never.
#[local] Arguments delivery_policy : simpl never.

Ltac project := cbn [fst snd rng clock logs wire].

#[local] Arguments drawn_phase : simpl never.
#[local] Arguments drawn_step : simpl never.
#[local] Arguments drawn_devices : simpl never.

(** The wire is built by appending one event at a time. *)
Ltac wire_norm := cbn; repeat rewrite <- app_assoc; cbn [app].

(** Symbolic execution from a world given by its four fields: with the
    projections unfolded too, no intermediate world is ever built. *)
Ltac exec :=
  cbv [handle do_GET do_POST
       handle_validation handle_send_config handle_rollout_status
       validate_config send_config_to_device get_rollout_status report_error
       try_except bind ret lift read_json
       sleep log logger_info logger_error emit
       send_response send_header end_headers wfile_write
       random_random random_randint random_choice random_uniform
       randbelow next_draw
       py_get json_response
       effect fresh skip_draws
       rng clock logs wire fst snd].

(** Brings both sides of a statement about final states to the same
    shape. *)
Ltac same_state :=
  cbn [app fst snd rng clock logs wire Z.add Pos.add];
  repeat rewrite <- app_assoc; cbn [app];
  rewrite ?app_nil_r, ?Z.add_0_r; try reflexivity.

(** Case analysis along the branches a handler takes. *)
Ltac branch_on :=
  cbn [fst snd rng clock logs wire truthy negb];
  match goal with
  | |- context [match body ?r with _ => _ end] =>
      destruct (body r) as [[| | | | | |?d]|?e]
  | |- context [match dict_get ?d ?k with _ => _ end] =>
      let E := fresh "Hget" in destruct (dict_get d k) as [?v|] eqn:E
  | |- context [negb (truthy ?v)] =>
      let E := fresh "Htruthy" in destruct (truthy v) eqn:E; cbn [negb]
  | |- context [match py_len ?v with _ => _ end] =>
      let E := fresh "Hlen" in destruct (py_len v) as [?n|?e] eqn:E
  | |- context [match py_get ?v ?k ?x with _ => _ end] =>
      destruct v; cbn [py_get]
  | |- context [if ?n <? 3 then _ else _] =>
      let E := fresh "Hlt" in destruct (n <? 3) eqn:E
  | |- context [if SFltb ?u ?t then _ else _] =>
      let E := fresh "Hpolicy" in destruct (SFltb u t) eqn:E
  | |- context [match ?v with
                | JNull => _ | JBool _ => _ | JInt _ => _ | JFloat _ => _
                | JStr _ => _ | JList _ => _ | JDict _ => _
                end] =>
      is_var v; destruct v
  end.

Ltac branch :=
  first [ branch_on
        | progress cbn [fst snd rng clock logs wire truthy negb] ].

(** Closes a goal of the form "returned normally, and sent one JSON
    response whose payload opens with a known status". *)
Ltac answered :=
  split; [reflexivity|]; eexists _, _, _; wire_norm;
  split; [reflexivity | cbn; auto].

(** ** Basic facts *)

Lemma str_eqb_refl : forall s, str_eqb s s = true.
Proof.
  induction s as [|c s IH]; simpl; [reflexivity|].
  now rewrite N.eqb_refl, IH.
Qed.

Lemma str_eqb_eq : forall a b, str_eqb a b = true <-> a = b.
Proof.
  induction a as [|x a IH]; destruct b as [|y b]; simpl; split;
    try discriminate; try reflexivity.
  - intros H. apply andb_true_iff in H as [Hx Hab].
    apply N.eqb_eq in Hx. apply IH in Hab. now subst.
  - intros H. injection H as -> ->. now rewrite N.eqb_refl, str_eqb_refl.
Qed.

(** [recognized] decides membership in [endpoints]. *)
Lemma recognized_spec :
  forall req, recognized req = true <-> In (command req, path req) endpoints.
Proof.
  intros req. unfold recognized. rewrite existsb_exists. split.
  - intros ([m p] & Hin & Heq). cbn [fst snd] in Heq.
    apply andb_true_iff in Heq as [Hm Hp]. apply str_eqb_eq in Hp.
    destruct (command req), m; try discriminate Hm; rewrite Hp; exact Hin.
  - intros Hin. exists (command req, path req). split; [exact Hin|].
    cbn [fst snd]. rewrite str_eqb_refl. now destruct (command req).
Qed.

(** The two thresholds are the binary64 values nearest to 9/10 and
    95/100, as the literals [0.9] and [0.95] denote. *)
Lemma float_0_9_is_nine_tenths :
  SFdiv prec emax (float_of 9 0) (float_of 10 0) = float_0_9.
Proof. reflexivity. Qed.

Lemma float_0_95_is_95_hundredths :
  SFdiv prec emax (float_of 95 0) (float_of 100 0) = float_0_95.
Proof. reflexivity. Qed.

Section Properties.
Context {rt : Runtime}.

(** C1. A /validate body whose configVersion is absent, empty or shorter
    than three characters is rejected whatever the generator would draw:
    [validate_config] returns [False] without consulting it, and the
    handler answers 400 with status "failure", the fixed message, and the
    configVersion of the body ("unknown" standing in for an absent one). *)
Theorem validate_rejects_short_version :
  forall (req : request) (d : dict) (w : world),
    body req = Ok (JDict d) ->
    (dict_get d (lit "configVersion") = None \/
     exists s, dict_get d (lit "configVersion") = Some (JStr s) /\
               (length s < 3)%nat) ->
    fst (validate_config (JDict d) w) = Ok false /\
    rng (snd (validate_config (JDict d) w)) = rng w /\
    fst (handle_validation req w) = Ok tt /\
    rng (snd (handle_validation req w)) = rng w /\
    wire (snd (handle_validation req w)) =
      wire w ++
      json_response 400
        (JDict [ (lit "status", JStr (lit "failure"));
                 (lit "message", JStr (lit "Configuration validation failed"));
                 (lit "configVersion",
                  get_or d (lit "configVersion") unknown) ]).
Proof.
  intros req d w Hbody Hshort.
  run_handler. rewrite Hbody.
  destruct Hshort as [Habs | (s & Hs & Hlen)].
  - unfold get_or. rewrite Habs. wire_norm. repeat split; reflexivity.
  - unfold get_or. rewrite Hs.
    destruct s as [|a [|b [|c s]]]; cbn in Hlen; try lia;
      wire_norm; repeat split; reflexivity.
Qed.

(** C5. A /validate body whose configVersion has three characters or more
    is accepted exactly when the acceptance policy says so: the verdict of
    [validate_config] is the policy's, and the handler answers 200 with
    status "success" on [true], 400 with status "failure" on [false]. *)
Theorem validate_follows_policy :
  forall (req : request) (d : dict) (s : str) (w : world),
    body req = Ok (JDict d) ->
    dict_get d (lit "configVersion") = Some (JStr s) ->
    (3 <= length s)%nat ->
    fst (validate_config (JDict d) w) = Ok (acceptance_policy w) /\
    fst (handle_validation req w) = Ok tt /\
    wire (snd (handle_validation req w)) =
      wire w ++
      (if acceptance_policy w then
         json_response 200
           (JDict [ (lit "status", JStr (lit "success"));
                    (lit "message", JStr (lit "Configuration validation passed"));
                    (lit "configVersion", JStr s) ])
       else
         json_response 400
           (JDict [ (lit "status", JStr (lit "failure"));
                    (lit "message", JStr (lit "Configuration validation failed"));
                    (lit "configVersion", JStr s) ])).
Proof.
  intros req d s w Hbody Hs Hlen.
  assert (Hge : (Z.of_nat (length s) <? 3) = false)
    by (apply Z.ltb_ge; lia).
  assert (Htrue : truthy (JStr s) = true)
    by (destruct s; [cbn in Hlen; lia | reflexivity]).
  run_handler. rewrite Hbody, Hs, Htrue.
  cbn [negb py_len]. rewrite Hge. project.
  change (SFltb (float_of (rng w O mod 2 ^ 53) (-53)) float_0_9)
    with (acceptance_policy w).
  destruct (acceptance_policy w); wire_norm; repeat split; reflexivity.
Qed.

(** The run of /send-config on a body that reaches the dispatcher. *)
Lemma send_config_run :
  forall (req : request) (d c : dict) (w : world),
    body req = Ok (JDict d) ->
    config_of d = Some c ->
    let device_id := get_or d (lit "deviceId") unknown in
    fst (send_config_to_device device_id (JDict c) w) = Ok (delivery_policy w) /\
    fst (handle_send_config req w) = Ok tt /\
    wire (snd (handle_send_config req w)) =
      wire w ++
      (if delivery_policy w then
         json_response 200
           (JDict [ (lit "status", JStr (lit "success"));
                    (lit "message",
                     JStr (lit "Configuration sent to device " ++ py_str device_id));
                    (lit "deviceId", device_id);
                    (lit "configName", get_or c (lit "name") unknown) ])
       else
         json_response 500
           (JDict [ (lit "status", JStr (lit "failure"));
                    (lit "message",
                     JStr (lit "Failed to send config to device " ++ py_str device_id));
                    (lit "deviceId", device_id) ])).
Proof.
  intros req d c w Hbody Hcfg device_id. subst device_id.
  unfold config_of in Hcfg.
  run_handler. rewrite Hbody. unfold get_or.
  destruct (dict_get d (lit "config")) as [[| | | | | |c']|] eqn:Hc;
    try discriminate; injection Hcfg as <-; project;
    change (SFltb (float_of (rng w O mod 2 ^ 53) (-53)) float_0_95)
      with (delivery_policy w);
    destruct (delivery_policy w); wire_norm;
    repeat split; reflexivity.
Qed.

(** C4. Once a /send-config body reaches the dispatcher, the response is
    the delivery policy's verdict and nothing else: on [false] a 500 with
    status "failure", the message "Failed to send config to device
    {deviceId}" and the deviceId; on [true] a 200 with status "success",
    the deviceId and the config's name.  A failed delivery is never
    reported with a 4xx code. *)
Theorem send_config_reports_delivery :
  forall (req : request) (d c : dict) (w : world),
    body req = Ok (JDict d) ->
    config_of d = Some c ->
    let device_id := get_or d (lit "deviceId") unknown in
    fst (send_config_to_device device_id (JDict c) w) = Ok (delivery_policy w) /\
    fst (handle_send_config req w) = Ok tt /\
    (delivery_policy w = false ->
     wire (snd (handle_send_config req w)) =
       wire w ++
       json_response 500
         (JDict [ (lit "status", JStr (lit "failure"));
                  (lit "message",
                   JStr (lit "Failed to send config to device " ++ py_str device_id));
                  (lit "deviceId", device_id) ])) /\
    (delivery_policy w = true ->
     wire (snd (handle_send_config req w)) =
       wire w ++
       json_response 200
         (JDict [ (lit "status", JStr (lit "success"));
                  (lit "message",
                   JStr (lit "Configuration sent to device " ++ py_str device_id));
                  (lit "deviceId", device_id);
                  (lit "configName", get_or c (lit "name") unknown) ])).
Proof.
  intros req d c w Hbody Hcfg device_id.
  destruct (send_config_run req d c w Hbody Hcfg) as (Hdev & Hok & Hwire).
  fold device_id in Hdev, Hwire.
  repeat split; try assumption; intros Hpol; rewrite Hpol in Hwire; exact Hwire.
Qed.

(** Whatever the request, /send-config answers with one JSON response
    whose code is 200 or 500. *)
Lemma send_config_code :
  forall (req : request) (w : world),
    exists code payload,
      wire (snd (handle_send_config req w)) =
        wire w ++ json_response code payload /\
      (code = 200 \/ code = 500).
Proof.
  intros req w. run_handler.
  destruct (body req) as [[| | | | | |d]|e]; project;
    try (eexists 500, _; wire_norm; split; [reflexivity | now right]).
  destruct (dict_get d (lit "config")) as [[| | | | | |c]|]; project;
    try (eexists 500, _; wire_norm; split; [reflexivity | now right]);
    destruct (SFltb _ _); project;
    [ eexists 200, _ | eexists 500, _ | eexists 200, _ | eexists 500, _ ];
    wire_norm; (split; [reflexivity | auto]).
Qed.

(** C10. The outcome of /send-config does not depend on what the body
    says: two dispatchable bodies (fields may be missing; "unknown" and the
    empty object stand in for deviceId and config) met by the same draw of
    the delivery policy get the same response code and the same status;
    and no body at all, dispatchable or not, is answered with a client
    error: the code is always 200 or 500. *)
Theorem send_config_outcome_ignores_body :
  (forall (req1 req2 : request) (d1 d2 c1 c2 : dict) (w1 w2 : world),
      body req1 = Ok (JDict d1) -> config_of d1 = Some c1 ->
      body req2 = Ok (JDict d2) -> config_of d2 = Some c2 ->
      next_random w1 = next_random w2 ->
      exists code status rest1 rest2,
        wire (snd (handle_send_config req1 w1)) =
          wire w1 ++
          json_response code (JDict ((lit "status", JStr status) :: rest1)) /\
        wire (snd (handle_send_config req2 w2)) =
          wire w2 ++
          json_response code (JDict ((lit "status", JStr status) :: rest2)) /\
        code = (if delivery_policy w1 then 200 else 500) /\
        status = (if delivery_policy w1 then lit "success" else lit "failure")) /\
  (forall (req : request) (w : world),
      exists code payload,
        wire (snd (handle_send_config req w)) =
          wire w ++ json_response code payload /\
        (code = 200 \/ code = 500)).
Proof.
  split; [| exact send_config_code].
  intros req1 req2 d1 d2 c1 c2 w1 w2 Hb1 Hc1 Hb2 Hc2 Hdraw.
  assert (Hpol : delivery_policy w2 = delivery_policy w1)
    by (unfold delivery_policy; now rewrite Hdraw).
  destruct (send_config_run req1 d1 c1 w1 Hb1 Hc1) as (_ & _ & H1).
  destruct (send_config_run req2 d2 c2 w2 Hb2 Hc2) as (_ & _ & H2).
  rewrite Hpol in H2. rewrite H1, H2.
  destruct (delivery_policy w1).
  - exists 200, (lit "success"). eexists _, _. repeat split; reflexivity.
  - exists 500, (lit "failure"). eexists _, _. repeat split; reflexivity.
Qed.

(** [get_rollout_status] consumes three draws and cannot fail. *)
Lemma get_rollout_status_run :
  forall (rollout_id : json) (w : world),
    get_rollout_status rollout_id w =
      (Ok (rollout_record rollout_id (drawn_phase w) (drawn_step w) (drawn_devices w)),
       skip_draws 3 w).
Proof. reflexivity. Qed.

(** [random.choice] returns one of the three names in its list. *)
Lemma drawn_phase_cases :
  forall w, drawn_phase w = lit "Progressing"
            \/ drawn_phase w = lit "Completed"
            \/ drawn_phase w = lit "Paused".
Proof.
  intros w. unfold drawn_phase.
  pose proof (Z.mod_pos_bound (rng w 0%nat) 3 ltac:(lia)) as Hb.
  assert (Hc : rng w 0%nat mod 3 = 0 \/ rng w 0%nat mod 3 = 1
               \/ rng w 0%nat mod 3 = 2) by lia.
  destruct Hc as [-> | [-> | ->]]; cbn; auto.
Qed.

Lemma drawn_phase_in : forall w, In (drawn_phase w) phases.
Proof.
  intros w. unfold phases.
  destruct (drawn_phase_cases w) as [-> | [-> | ->]]; cbn; auto.
Qed.

(** [random.randint(1, 3)] and [random.randint(1, 10)] stay in range. *)
Lemma drawn_step_bounds : forall w, 1 <= drawn_step w <= 3.
Proof.
  intros w. unfold drawn_step.
  pose proof (Z.mod_pos_bound (rng w 1%nat) 3 ltac:(lia)). lia.
Qed.

Lemma drawn_devices_bounds : forall w, 1 <= drawn_devices w <= 10.
Proof.
  intros w. unfold drawn_devices.
  pose proof (Z.mod_pos_bound (rng w 2%nat) 10 ltac:(lia)). lia.
Qed.

(** The run of /rollout-status, by the shape of the body. *)
Lemma rollout_status_run :
  forall (req : request) (w : world),
    fst (handle_rollout_status req w) = Ok tt /\
    wire (snd (handle_rollout_status req w)) =
      wire w ++
      match body req with
      | Ok (JDict d) =>
          json_response 200
            (rollout_record (get_or d (lit "rolloutId") unknown)
               (drawn_phase w) (drawn_step w) (drawn_devices w))
      | Ok other =>
          json_response 500
            (JDict [ (lit "status", JStr (lit "error"));
                     (lit "message",
                      JStr (lit "'" ++ type_name other
                            ++ lit "' object has no attribute 'get'")) ])
      | Raise e =>
          json_response 500
            (JDict [ (lit "status", JStr (lit "error"));
                     (lit "message", JStr (exn_str e)) ])
      end.
Proof.
  intros req w. run_handler.
  destruct (body req) as [[| | | | | |d]|e];
    wire_norm; split; reflexivity.
Qed.

(** C3. A /rollout-status request naming a rollout by a string is answered
    200 with a record that repeats the id, has totalSteps 3 and
    totalDevices 10, a phase among Progressing, Paused and Completed, an
    integer currentStep between 1 and totalSteps and an integer
    completedDevices between 1 and 10.  No dispatch is ever recorded by
    the controller, so this holds in every state. *)
Theorem rollout_status_record_shape :
  forall (req : request) (d : dict) (s : str) (w : world),
    body req = Ok (JDict d) ->
    dict_get d (lit "rolloutId") = Some (JStr s) ->
    fst (handle_rollout_status req w) = Ok tt /\
    exists (phase : str) (step devices : Z),
      wire (snd (handle_rollout_status req w)) =
        wire w ++
        json_response 200
          (JDict [ (lit "rolloutId", JStr s);
                   (lit "phase", JStr phase);
                   (lit "currentStep", JInt step);
                   (lit "totalSteps", JInt 3);
                   (lit "completedDevices", JInt devices);
                   (lit "totalDevices", JInt 10);
                   (lit "message",
                    JStr (lit "Rollout " ++ s ++ lit " is progressing")) ]) /\
      In phase phases /\
      1 <= step <= 3 /\
      1 <= devices <= 10.
Proof.
  intros req d s w Hbody Hid.
  destruct (rollout_status_run req w) as [Hok Hwire].
  rewrite Hbody in Hwire. unfold get_or in Hwire. rewrite Hid in Hwire.
  split; [exact Hok|].
  exists (drawn_phase w), (drawn_step w), (drawn_devices w).
  split; [exact Hwire|].
  auto using drawn_phase_in, drawn_step_bounds, drawn_devices_bounds.
Qed.

(** C9. Every 200 response of /rollout-status carries, besides the fields
    of the record, a message "Rollout {rolloutId} is progressing", whatever
    phase was drawn for it, Completed and Paused included. *)
Theorem rollout_status_message :
  forall (req : request) (w : world) (payload : json),
    wire (snd (handle_rollout_status req w)) =
      wire w ++ json_response 200 payload ->
    exists (d record : dict),
      body req = Ok (JDict d) /\
      payload = JDict record /\
      dict_get record (lit "phase") = Some (JStr (drawn_phase w)) /\
      dict_get record (lit "message") =
        Some (JStr (lit "Rollout "
                    ++ py_str (get_or d (lit "rolloutId") unknown)
                    ++ lit " is progressing")).
Proof.
  intros req w payload Hwire.
  destruct (rollout_status_run req w) as [_ Hrun].
  rewrite Hrun in Hwire. apply app_inv_head in Hwire.
  destruct (body req) as [[| | | | | |d]|e]; try discriminate Hwire.
  injection Hwire as <-.
  exists d. eexists. repeat split; reflexivity.
Qed.

(** C2, as the code has it.  [get_rollout_status] keeps no record: each
    call builds one from three fresh draws.  Two consecutive calls for the
    same id agree on rolloutId, totalSteps, totalDevices and message, and
    return the same record exactly when the second call's draws pick the
    phase, step and device count the first call's did. *)
Theorem get_rollout_status_twice :
  forall (rollout_id : json) (w : world),
    let w1 := snd (get_rollout_status rollout_id w) in
    fst (get_rollout_status rollout_id w) =
      Ok (rollout_record rollout_id
            (drawn_phase w) (drawn_step w) (drawn_devices w)) /\
    fst (get_rollout_status rollout_id w1) =
      Ok (rollout_record rollout_id
            (drawn_phase w1) (drawn_step w1) (drawn_devices w1)) /\
    (fst (get_rollout_status rollout_id w) =
       fst (get_rollout_status rollout_id w1)
     <-> drawn_phase w = drawn_phase w1
         /\ drawn_step w = drawn_step w1
         /\ drawn_devices w = drawn_devices w1).
Proof.
  intros rollout_id w w1. subst w1.
  rewrite !get_rollout_status_run. cbn [fst snd].
  split; [reflexivity|]. split; [reflexivity|]. split.
  - intros H. injection H as Hp Hs Hd. auto.
  - intros (-> & -> & ->). reflexivity.
Qed.

(** Whatever the request, /validate returns normally, having sent one JSON
    response whose payload opens with a "status" field. *)
Lemma validation_answers :
  forall (req : request) (w : world),
    fst (handle_validation req w) = Ok tt /\
    exists code st rest,
      wire (snd (handle_validation req w)) =
        wire w ++
        json_response code (JDict ((lit "status", JStr st) :: rest)) /\
      In st status_values.
Proof.
  intros req w. run_handler.
  destruct (body req) as [[| | | | | |d]|e]; project; try answered.
  destruct (dict_get d (lit "configVersion")) as [v|]; project;
    [| cbn [truthy negb]; project; answered].
  destruct (truthy v); cbn [negb]; project; [| answered].
  destruct (py_len v) as [n|e]; project; [| answered].
  destruct (n <? 3); project; [answered |].
  destruct (SFltb _ _); project; answered.
Qed.

(** The same for /send-config. *)
Lemma send_config_answers :
  forall (req : request) (w : world),
    fst (handle_send_config req w) = Ok tt /\
    exists code st rest,
      wire (snd (handle_send_config req w)) =
        wire w ++
        json_response code (JDict ((lit "status", JStr st) :: rest)) /\
      In st status_values.
Proof.
  intros req w. run_handler.
  destruct (body req) as [[| | | | | |d]|e]; project; try answered.
  destruct (dict_get d (lit "config")) as [[| | | | | |c]|]; project;
    try answered;
    destruct (SFltb _ _); project; answered.
Qed.

(** C6, as the code has it.  No handler lets a fault escape: each returns
    normally having sent exactly one JSON response.  /validate and
    /send-config always put a "status" of "success", "failure" or "error"
    in it.  /rollout-status does so only when it fails (500, "error"); its
    200 response is the rollout record, which has a "phase" and no
    "status" field. *)
Theorem handlers_always_answer :
  forall (req : request) (w : world),
    (fst (handle_validation req w) = Ok tt /\
     exists code st rest,
       wire (snd (handle_validation req w)) =
         wire w ++
         json_response code (JDict ((lit "status", JStr st) :: rest)) /\
       In st status_values) /\
    (fst (handle_send_config req w) = Ok tt /\
     exists code st rest,
       wire (snd (handle_send_config req w)) =
         wire w ++
         json_response code (JDict ((lit "status", JStr st) :: rest)) /\
       In st status_values) /\
    (fst (handle_rollout_status req w) = Ok tt /\
     exists code record,
       wire (snd (handle_rollout_status req w)) =
         wire w ++ json_response code (JDict record) /\
       ((code = 500 /\
         dict_get record (lit "status") = Some (JStr (lit "error")))
        \/
        (code = 200 /\
         dict_get record (lit "status") = None /\
         exists phase,
           dict_get record (lit "phase") = Some (JStr phase) /\
           In phase phases))).
Proof.
  intros req w.
  split; [apply validation_answers|].
  split; [apply send_config_answers|].
  destruct (rollout_status_run req w) as [Hok Hwire].
  split; [exact Hok|]. rewrite Hwire.
  destruct (body req) as [[| | | | | |d]|e];
    try (exists 500; eexists; split; [reflexivity | left; split; reflexivity]).
  exists 200. eexists. split; [reflexivity|]. right.
  split; [reflexivity|]. split; [reflexivity|].
  exists (drawn_phase w). split; [reflexivity | apply drawn_phase_in].
Qed.

(** Routing, on the boolean test. *)
Lemma routing :
  forall (req : request) (w : world),
    (recognized req = false ->
     handle req w =
       (Ok tt,
        {| rng := rng w; clock := clock w; logs := logs w;
           wire := wire w ++ [SendResponse 404; EndHeaders] |})) /\
    (recognized req = true ->
     exists code payload,
       wire (snd (handle req w)) = wire w ++ json_response code payload).
Proof.
  intros req w. unfold recognized, endpoints, handle, do_GET, do_POST.
  cbn [existsb fst snd].
  destruct (command req); cbn [method_eqb andb orb].
  - destruct (str_eqb (path req) (lit "/health")); cbn [orb].
    + split; [discriminate|]. intros _. run_handler. wire_norm.
      eexists _, _. reflexivity.
    + destruct (str_eqb (path req) (lit "/metrics")); cbn [orb].
      * split; [discriminate|]. intros _. run_handler. project.
        eexists _, _. wire_norm. reflexivity.
      * split; [|discriminate]. intros _. run_handler. wire_norm. reflexivity.
  - destruct (str_eqb (path req) (lit "/validate")); cbn [orb].
    { split; [discriminate|]. intros _.
      destruct (validation_answers req w) as (_ & code & st & rest & Hw & _).
      rewrite Hw. eexists _, _. reflexivity. }
    destruct (str_eqb (path req) (lit "/send-config")); cbn [orb].
    { split; [discriminate|]. intros _.
      destruct (send_config_answers req w) as (_ & code & st & rest & Hw & _).
      rewrite Hw. eexists _, _. reflexivity. }
    destruct (str_eqb (path req) (lit "/rollout-status")); cbn [orb].
    { split; [discriminate|]. intros _.
      destruct (rollout_status_run req w) as (_ & Hw). rewrite Hw.
      destruct (body req) as [[| | | | | |d]|e]; eexists _, _; reflexivity. }
    split; [|discriminate]. intros _. run_handler. wire_norm. reflexivity.
Qed.

(** Routing inside the class, over the endpoint list: a GET or POST whose
    method and path are not those of an announced endpoint gets a bare
    404, and nothing else in the process changes; on every announced
    endpoint the response carries Content-type: application/json. *)
Theorem unknown_paths_get_404 :
  forall (req : request) (w : world),
    (~ In (command req, path req) endpoints ->
     handle req w =
       (Ok tt,
        {| rng := rng w; clock := clock w; logs := logs w;
           wire := wire w ++ [SendResponse 404; EndHeaders] |})) /\
    (In (command req, path req) endpoints ->
     exists code payload,
       wire (snd (handle req w)) =
         wire w ++
         [ SendResponse code;
           SendHeader (lit "Content-type") (lit "application/json");
           EndHeaders;
           WfileWrite payload ]).
Proof.
  intros req w. destruct (routing req w) as [Hno Hyes]. split.
  - intros Hout. apply Hno.
    destruct (recognized req) eqn:Hrec; [|reflexivity].
    apply recognized_spec in Hrec. contradiction.
  - intros Hin. apply Hyes. now apply recognized_spec.
Qed.

(** C8, as the code has it.  The class answers GET and POST only.  A GET or
    POST whose method and path are not those of an announced endpoint gets
    a bare 404: status line, end of headers, no Content-type and no body,
    and nothing else in the process changes; on every announced endpoint
    the response carries Content-type: application/json.  A request with
    any other method never reaches the class: the base class answers it
    501 with an HTML error page (headers only for a HEAD). *)
Theorem requests_off_the_endpoints :
  forall (line : request_line) (w : world),
    (forall m : method,
        command_name line = method_name m ->
        let req := {| command := m; path := target line;
                      body := content line |} in
        handle_one_request line = ByClass (handle req) /\
        (~ In (m, target line) endpoints ->
         handle req w =
           (Ok tt,
            {| rng := rng w; clock := clock w; logs := logs w;
               wire := wire w ++ [SendResponse 404; EndHeaders] |})) /\
        (In (m, target line) endpoints ->
         exists code payload,
           wire (snd (handle req w)) =
             wire w ++
             [ SendResponse code;
               SendHeader (lit "Content-type") (lit "application/json");
               EndHeaders;
               WfileWrite payload ])) /\
    (command_name line <> lit "GET" ->
     command_name line <> lit "POST" ->
     handle_one_request line =
       ByBaseClass
         {| reply_code := 501;
            reply_content_type := lit "text/html;charset=utf-8";
            reply_has_body :=
              negb (str_eqb (command_name line) (lit "HEAD")) |}).
Proof.
  intros line w. split.
  - intros m Hname req. subst req.
    destruct (routing {| command := m; path := target line;
                         body := content line |} w) as [Hno Hyes].
    split; [|split].
    + unfold handle_one_request. rewrite Hname.
      destruct m; cbn [method_name handle command].
      * rewrite str_eqb_refl. reflexivity.
      * change (str_eqb (lit "POST") (lit "GET")) with false.
        rewrite str_eqb_refl. reflexivity.
    + intros Hout. apply Hno.
      destruct (recognized _) eqn:Hrec; [|reflexivity].
      apply recognized_spec in Hrec. contradiction.
    + intros Hin. apply Hyes. now apply recognized_spec.
  - intros Hget Hpost. unfold handle_one_request.
    destruct (str_eqb (command_name line) (lit "GET")) eqn:Eget;
      [apply str_eqb_eq in Eget; contradiction|].
    destruct (str_eqb (command_name line) (lit "POST")) eqn:Epost;
      [apply str_eqb_eq in Epost; contradiction|].
    reflexivity.
Qed.

(** X1. A dispatch is one draw of the delivery policy and nothing more:
    [send_config_to_device] returns the policy's verdict, sleeps two
    seconds, logs one line (INFO on success, ERROR on failure) and sends
    nothing to the client; it keeps no rollout state. *)
Theorem dispatch_is_one_policy_draw :
  forall (device_id config_data : json) (w : world),
    send_config_to_device device_id config_data w =
      (Ok (delivery_policy w),
       {| rng := fun n => rng w (S n);
          clock := clock w + 2;
          logs :=
            logs w ++
            [ if delivery_policy w then
                (INFO, [226; 339; 8230]%N
                       ++ lit " Config successfully applied to device "
                       ++ py_str device_id)
              else
                (ERROR, [226; 338]%N
                        ++ lit " Failed to apply config to device "
                        ++ py_str device_id) ];
          wire := wire w |}).
Proof.
  intros device_id config_data w. run_handler. project.
  change (SFltb (float_of (rng w O mod 2 ^ 53) (-53)) float_0_95)
    with (delivery_policy w).
  destruct (delivery_policy w); reflexivity.
Qed.

(** X2. A request whose body cannot be read (no or bad Content-Length,
    bytes that are not UTF-8, text that is not JSON) or does not decode to
    an object is answered by each of the three POST handlers with 500,
    status "error" and the text of the exception; the fault is logged,
    no draw is consumed and no time is slept. *)
Theorem unusable_body_is_a_500 :
  forall (req : request) (e : exn) (w : world),
    body_fault (body req) = Some e ->
    let answer prefix :=
      (Ok tt,
       {| rng := rng w; clock := clock w;
          logs := logs w ++ [(ERROR, prefix ++ exn_str e)];
          wire :=
            wire w ++
            json_response 500
              (JDict [ (lit "status", JStr (lit "error"));
                       (lit "message", JStr (exn_str e)) ]) |}) in
    handle_validation req w = answer (lit "Validation error: ") /\
    handle_send_config req w = answer (lit "Send config error: ") /\
    handle_rollout_status req w = answer (lit "Status error: ").
Proof.
  intros req e w Hfault answer. subst answer.
  run_handler.
  destruct (body req) as [[| | | | | |d]|e']; try discriminate Hfault;
    injection Hfault as <-; wire_norm; repeat split; reflexivity.
Qed.

(** X3. The structural rule of /validate is only defined on values that
    have a length: a configVersion that is [true] or a non-zero integer
    passes the emptiness test, makes [len] raise, and is answered 500 with
    status "error", not 400. *)
Theorem validate_unsized_version_is_a_500 :
  forall (req : request) (d : dict) (v : json) (w : world),
    body req = Ok (JDict d) ->
    dict_get d (lit "configVersion") = Some v ->
    (v = JBool true \/ exists z, z <> 0 /\ v = JInt z) ->
    fst (handle_validation req w) = Ok tt /\
    rng (snd (handle_validation req w)) = rng w /\
    wire (snd (handle_validation req w)) =
      wire w ++
      json_response 500
        (JDict [ (lit "status", JStr (lit "error"));
                 (lit "message",
                  JStr (lit "object of type '" ++ type_name v
                        ++ lit "' has no len()")) ]).
Proof.
  intros req d v w Hbody Hv Hkind.
  run_handler. rewrite Hbody, Hv.
  destruct Hkind as [-> | (z & Hz & ->)].
  - wire_norm. repeat split; reflexivity.
  - cbn [truthy]. apply Z.eqb_neq in Hz. rewrite Hz.
    wire_norm. repeat split; reflexivity.
Qed.

(** X4. The phase, step and device count of a status record are drawn
    independently: every combination of a phase, a step in 1..3 and a
    device count in 1..10 is returned for some state of the generator,
    Completed at step 1 as well as Progressing at step 3 with all ten
    devices done. *)
Theorem every_status_record_is_drawn :
  forall (rollout_id : json) (phase : str) (step devices : Z),
    In phase phases ->
    1 <= step <= 3 ->
    1 <= devices <= 10 ->
    exists w : world,
      fst (get_rollout_status rollout_id w) =
        Ok (rollout_record rollout_id phase step devices).
Proof.
  intros rollout_id phase step devices Hphase Hstep Hdev.
  assert (Hs : (step - 1) mod 3 = step - 1) by (apply Z.mod_small; lia).
  assert (Hd : (devices - 1) mod 10 = devices - 1) by (apply Z.mod_small; lia).
  assert (Hpick : forall i,
             fst (get_rollout_status rollout_id
                    (fresh (fun n => nth n [i; step - 1; devices - 1] 0))) =
             Ok (rollout_record rollout_id
                   (nth (Z.to_nat (i mod 3))
                      [lit "Progressing"; lit "Completed"; lit "Paused"] [])
                   step devices)).
  { intros i. rewrite get_rollout_status_run. cbn [fst].
    unfold drawn_phase, drawn_step, drawn_devices, fresh. cbn [rng nth].
    rewrite Hs, Hd. do 2 f_equal; lia. }
  destruct Hphase as [<- | [<- | [<- | []]]].
  - eexists. exact (Hpick 0).
  - eexists. exact (Hpick 2).
  - eexists. exact (Hpick 1).
Qed.

(** A handler reads nothing of the process but the generator, and only
    adds to the clock, the log and the wire. *)
Lemma handle_frame :
  forall (req : request) (w : world),
    handle req w =
      (Ok tt,
       {| rng := rng (effect req (rng w));
          clock := clock w + clock (effect req (rng w));
          logs := logs w ++ logs (effect req (rng w));
          wire := wire w ++ wire (effect req (rng w)) |}).
Proof.
  intros req [g c l o]. unfold effect, handle, do_GET, do_POST.
  destruct (command req);
    repeat match goal with
           | |- context [if str_eqb ?a ?b then _ else _] =>
               destruct (str_eqb a b)
           end;
    exec; repeat branch; exec; same_state.
Qed.

(** One request, one answer: the handler returns normally, adds to the
    wire one response the endpoint allows, sleeps two seconds at most and
    only adds to the log. *)
Lemma handle_step :
  forall (req : request) (w : world),
    fst (handle req w) = Ok tt /\
    (exists response,
        wire (snd (handle req w)) = wire w ++ response /\
        answers req response) /\
    clock w <= clock (snd (handle req w)) <= clock w + 2 /\
    exists lines, logs (snd (handle req w)) = logs w ++ lines.
Proof.
  intros req [g c l o].
  unfold answers, recognized, endpoints, allowed_codes, handle, do_GET, do_POST.
  cbn [existsb fst snd].
  destruct (command req); cbn [method_eqb andb orb];
    repeat match goal with
           | |- context [if str_eqb ?a ?b then _ else _] =>
               destruct (str_eqb a b); cbn [andb orb]
           end;
    exec; repeat branch; exec;
    (split; [reflexivity|]);
    (split; [eexists; split; [repeat rewrite <- app_assoc; reflexivity|];
             first [ reflexivity
                   | eexists _, _; split; [reflexivity | cbn [In]; auto] ] |]);
    (split; [lia|]);
    eexists; repeat rewrite <- app_assoc;
    first [reflexivity | symmetry; apply app_nil_r].
Qed.

(** X5. The controller keeps nothing between requests but the position
    of the generator: in two processes about to draw the same numbers, a
    request returns the same, and sends, logs and sleeps the same, however
    their clocks, logs and wires differ. *)
Theorem requests_share_only_the_generator :
  forall (req : request) (w1 w2 : world),
    rng w1 = rng w2 ->
    fst (handle req w1) = fst (handle req w2) /\
    rng (snd (handle req w1)) = rng (snd (handle req w2)) /\
    exists (seconds : Z) (lines : list (level * str)) (response : list out_event),
      clock (snd (handle req w1)) = clock w1 + seconds /\
      clock (snd (handle req w2)) = clock w2 + seconds /\
      logs (snd (handle req w1)) = logs w1 ++ lines /\
      logs (snd (handle req w2)) = logs w2 ++ lines /\
      wire (snd (handle req w1)) = wire w1 ++ response /\
      wire (snd (handle req w2)) = wire w2 ++ response.
Proof.
  intros req w1 w2 Hrng.
  rewrite (handle_frame req w1), (handle_frame req w2), Hrng. project.
  split; [reflexivity|]. split; [reflexivity|].
  exists (clock (effect req (rng w2))), (logs (effect req (rng w2))),
    (wire (effect req (rng w2))).
  repeat split; reflexivity.
Qed.

(** X6. The codes of each endpoint.  Off the five endpoints the answer is
    the bare 404.  On them it is one JSON response: always 200 for a GET;
    200, 400 or 500 for /validate; 200 or 500 for /send-config and
    /rollout-status, which never answer 400. *)
Theorem response_codes_by_endpoint :
  forall (req : request) (w : world),
    exists response,
      wire (snd (handle req w)) = wire w ++ response /\
      ((~ In (command req, path req) endpoints /\
        response = [SendResponse 404; EndHeaders])
       \/
       (In (command req, path req) endpoints /\
        exists code payload,
          response = json_response code payload /\
          match command req with
          | GET => code = 200
          | POST =>
              code = 200 \/ code = 500 \/
              (code = 400 /\ path req = lit "/validate")
          end)).
Proof.
  intros req w.
  destruct (handle_step req w) as (_ & (response & Hwire & Hans) & _).
  exists response. split; [exact Hwire|].
  unfold answers in Hans. destruct (recognized req) eqn:Hrec.
  - right. split; [now apply recognized_spec|].
    destruct Hans as (code & payload & -> & Hcode).
    exists code, payload. split; [reflexivity|].
    unfold allowed_codes in Hcode. destruct (command req).
    + destruct Hcode as [<- | []]. reflexivity.
    + destruct (str_eqb (path req) (lit "/validate")) eqn:Hpath.
      * apply str_eqb_eq in Hpath.
        destruct Hcode as [<- | [<- | [<- | []]]]; auto.
      * destruct Hcode as [<- | [<- | []]]; auto.
  - left. split; [|exact Hans].
    intros Hin. apply recognized_spec in Hin. congruence.
Qed.

(** X7. A process that handles requests one after the other answers each
    of them exactly once and in order, whatever the requests: the wire
    grows by one allowed response per request, the log only grows, and the
    time slept is at most two seconds a request. *)
Theorem handle_each_answers_in_order :
  forall (reqs : list request) (w : world),
    fst (handle_each reqs w) = Ok tt /\
    (exists responses,
        Forall2 answers reqs responses /\
        wire (snd (handle_each reqs w)) = wire w ++ concat responses) /\
    clock w <= clock (snd (handle_each reqs w))
            <= clock w + 2 * Z.of_nat (length reqs) /\
    exists lines, logs (snd (handle_each reqs w)) = logs w ++ lines.
Proof.
  induction reqs as [|req rest IH]; intros w.
  - cbn. split; [reflexivity|]. split.
    + exists []. split; [constructor | now rewrite app_nil_r].
    + split; [lia|]. exists []. now rewrite app_nil_r.
  - cbn [handle_each]. unfold bind.
    destruct (handle_step req w)
      as (Hok & (response & Hwire & Hans) & Hclock & (lines & Hlogs)).
    destruct (handle req w) as [r w1]. cbn [fst snd] in *. subst r.
    destruct (IH w1)
      as (Hok' & (responses & Hall & Hwire') & Hclock' & (lines' & Hlogs')).
    split; [exact Hok'|]. split; [|split].
    + exists (response :: responses). split; [now constructor|].
      rewrite Hwire', Hwire. cbn [concat]. now rewrite app_assoc.
    + cbn [length]. rewrite Nat2Z.inj_succ. lia.
    + exists (lines ++ lines'). rewrite Hlogs', Hlogs. now rewrite app_assoc.
Qed.

(** X8. /validate never accepts a configuration the structural rule would
    turn down: a 200 is only sent for an object whose configVersion has a
    length of three or more, and only when the acceptance policy drew
    [true]; its payload repeats that configVersion. *)
Theorem validate_accepts_only_long_versions :
  forall (req : request) (w : world) (payload : json),
    wire (snd (handle_validation req w)) =
      wire w ++ json_response 200 payload ->
    exists (d : dict) (v : json) (n : Z),
      body req = Ok (JDict d) /\
      dict_get d (lit "configVersion") = Some v /\
      py_len v = Ok n /\
      3 <= n /\
      acceptance_policy w = true /\
      payload =
        JDict [ (lit "status", JStr (lit "success"));
                (lit "message", JStr (lit "Configuration validation passed"));
                (lit "configVersion", v) ].
Proof.
  intros req w payload. run_handler.
  destruct (body req) as [[| | | | | |d]|e] eqn:Hbody;
    repeat branch; wire_norm; intros Hwire;
    apply app_inv_head in Hwire; try discriminate Hwire.
  injection Hwire as <-.
  match goal with
  | Hg : dict_get d _ = Some ?v, Hl : py_len ?v = Ok ?n,
    Hlt : (?n <? 3) = false, Hp : SFltb _ _ = true |- _ =>
      exists d, v, n; apply Z.ltb_ge in Hlt;
      repeat split; try assumption; try reflexivity; exact Hp
  end.
Qed.

(** X9. A /send-config body whose config is present but not an object
    (null, a number, a string, a list) is never dispatched: the handler
    answers 500 with status "error" and the text of the [AttributeError],
    logs it, and neither sleeps nor draws. *)
Theorem send_config_needs_an_object_config :
  forall (req : request) (d : dict) (c : json) (w : world),
    body req = Ok (JDict d) ->
    dict_get d (lit "config") = Some c ->
    config_of d = None ->
    let msg := lit "'" ++ type_name c ++ lit "' object has no attribute 'get'" in
    handle_send_config req w =
      (Ok tt,
       {| rng := rng w; clock := clock w;
          logs := logs w ++ [(ERROR, lit "Send config error: " ++ msg)];
          wire :=
            wire w ++
            json_response 500
              (JDict [ (lit "status", JStr (lit "error"));
                       (lit "message", JStr msg) ]) |}).
Proof.
  intros req d c w Hbody Hc Hnone msg. subst msg.
  unfold config_of in Hnone. rewrite Hc in Hnone.
  run_handler. rewrite Hbody, Hc.
  destruct c; try discriminate Hnone; same_state.
Qed.

(** X10. GET /metrics answers 200 with seven gauges in a fixed order, five
    floats drawn by [random.uniform] and two integers drawn by
    [random.randint]: active_rollouts lies in 1..10 and devices_configured
    in 50..200.  It takes seven draws, in the order of the gauges, and
    neither sleeps nor logs nor looks at the body. *)
Theorem metrics_gauges :
  forall (req : request) (w : world),
    command req = GET ->
    path req = lit "/metrics" ->
    handle req w =
      (Ok tt,
       {| rng := rng (skip_draws 7 w); clock := clock w; logs := logs w;
          wire :=
            wire w ++
            json_response 200
              (JDict
                 [ (lit "cpu_usage", JFloat (uniform_value 10 80 (rng w 0%nat)));
                   (lit "memory_usage", JFloat (uniform_value 20 90 (rng w 1%nat)));
                   (lit "response_time", JFloat (uniform_value 100 500 (rng w 2%nat)));
                   (lit "error_rate", JFloat (uniform_value 0 5 (rng w 3%nat)));
                   (lit "throughput", JFloat (uniform_value 1000 5000 (rng w 4%nat)));
                   (lit "active_rollouts", JInt (1 + rng w 5%nat mod 10));
                   (lit "devices_configured", JInt (50 + rng w 6%nat mod 151)) ]) |})
    /\ 1 <= 1 + rng w 5%nat mod 10 <= 10
    /\ 50 <= 50 + rng w 6%nat mod 151 <= 200.
Proof.
  intros req w Hget Hpath. split.
  - unfold handle, do_GET. rewrite Hget, Hpath.
    change (str_eqb (lit "/metrics") (lit "/health")) with false.
    change (str_eqb (lit "/metrics") (lit "/metrics")) with true.
    run_handler. project. unfold skip_draws, uniform_value.
    repeat rewrite <- app_assoc. reflexivity.
  - pose proof (Z.mod_pos_bound (rng w 5%nat) 10 ltac:(lia)).
    pose proof (Z.mod_pos_bound (rng w 6%nat) 151 ltac:(lia)). lia.
Qed.

(** X11. What a request costs.  The handler sleeps one second for every
    /validate body that is an object (accepted, rejected or faulted), two
    seconds for every /send-config body it dispatches, and not at all
    otherwise.  It takes seven draws for /metrics, three for a
    /rollout-status on an object, one for a dispatch, one for a /validate
    that passes the structural rule, and none otherwise. *)
Theorem request_cost :
  forall (req : request) (w : world),
    clock (snd (handle req w)) = clock w + seconds_slept req /\
    rng (snd (handle req w)) = rng (skip_draws (draws_taken req) w).
Proof.
  intros req [g c l o].
  unfold seconds_slept, draws_taken, passes_structure, config_of,
    handle, do_GET, do_POST.
  destruct (command req);
    repeat match goal with
           | |- context [if str_eqb ?a ?b then _ else _] =>
               destruct (str_eqb a b)
           end;
    exec; repeat branch; exec;
    (split; [lia | reflexivity]).
Qed.

(** X12. /send-config never reports a delivery that did not happen: a 200
    is only sent for a body that was dispatched and only when the delivery
    policy drew [true]; its payload repeats the deviceId and the config's
    name, with "unknown" for what the body left out. *)
Theorem send_config_succeeds_only_on_delivery :
  forall (req : request) (w : world) (payload : json),
    wire (snd (handle_send_config req w)) =
      wire w ++ json_response 200 payload ->
    exists (d c : dict),
      body req = Ok (JDict d) /\
      config_of d = Some c /\
      delivery_policy w = true /\
      payload =
        JDict [ (lit "status", JStr (lit "success"));
                (lit "message",
                 JStr (lit "Configuration sent to device "
                       ++ py_str (get_or d (lit "deviceId") unknown)));
                (lit "deviceId", get_or d (lit "deviceId") unknown);
                (lit "configName", get_or c (lit "name") unknown) ].
Proof.
  intros req w payload Hwire.
  destruct (body req) as [[| | | | | |d]|e] eqn:Hbody;
    try (revert Hwire; run_handler; rewrite Hbody; wire_norm;
         intros Hwire; apply app_inv_head in Hwire; discriminate Hwire).
  destruct (config_of d) as [c|] eqn:Hcfg.
  - destruct (send_config_run req d c w Hbody Hcfg) as (_ & _ & Hrun).
    rewrite Hrun in Hwire. apply app_inv_head in Hwire.
    destruct (delivery_policy w); [|discriminate Hwire].
    injection Hwire as <-. exists d, c.
    repeat split; first [assumption | reflexivity].
  - revert Hwire. unfold config_of in Hcfg. run_handler. rewrite Hbody.
    destruct (dict_get d (lit "config")) as [[| | | | | |c]|];
      try discriminate Hcfg; wire_norm; intros Hwire;
      apply app_inv_head in Hwire; discriminate Hwire.
Qed.

(** X13. A rejection by /validate does not say why: every 400 has the same
    payload, status "failure", the fixed message and the configVersion of
    the body, whether the structural rule or the acceptance policy turned
    the configuration down; and one of the two did. *)
Theorem validate_rejections_look_alike :
  forall (req : request) (w : world) (payload : json),
    wire (snd (handle_validation req w)) =
      wire w ++ json_response 400 payload ->
    exists d : dict,
      body req = Ok (JDict d) /\
      payload =
        JDict [ (lit "status", JStr (lit "failure"));
                (lit "message", JStr (lit "Configuration validation failed"));
                (lit "configVersion", get_or d (lit "configVersion") unknown) ] /\
      (passes_structure d = false \/ acceptance_policy w = false).
Proof.
  intros req w payload. run_handler.
  destruct (body req) as [[| | | | | |d]|e] eqn:Hbody;
    repeat branch; wire_norm; intros Hwire;
    apply app_inv_head in Hwire; try discriminate Hwire;
    injection Hwire as <-; exists d; unfold passes_structure, get_or;
    repeat match goal with
           | H : dict_get _ _ = _ |- _ => rewrite H
           | H : truthy _ = _ |- _ => rewrite H
           | H : py_len _ = _ |- _ => rewrite H
           | H : (_ <? 3) = _ |- _ => rewrite H
           end;
    (split; [reflexivity|]); (split; [reflexivity|]);
    try (left; reflexivity).
  right. assumption.
Qed.

(** X14. Each POST handler reads one or two fields of the body and nothing
    else: /validate only configVersion, /send-config only deviceId and
    config, /rollout-status only rolloutId.  Two objects that agree on
    those fields are treated identically, result, log and response alike,
    whatever else they hold. *)
Theorem handlers_read_only_their_fields :
  forall (req1 req2 : request) (d1 d2 : dict) (w : world),
    body req1 = Ok (JDict d1) ->
    body req2 = Ok (JDict d2) ->
    (dict_get d1 (lit "configVersion") = dict_get d2 (lit "configVersion") ->
     handle_validation req1 w = handle_validation req2 w) /\
    (dict_get d1 (lit "deviceId") = dict_get d2 (lit "deviceId") ->
     dict_get d1 (lit "config") = dict_get d2 (lit "config") ->
     handle_send_config req1 w = handle_send_config req2 w) /\
    (dict_get d1 (lit "rolloutId") = dict_get d2 (lit "rolloutId") ->
     handle_rollout_status req1 w = handle_rollout_status req2 w).
Proof.
  intros req1 req2 d1 d2 w Hb1 Hb2. run_handler. rewrite Hb1, Hb2.
  split; [|split].
  - intros Hversion. rewrite Hversion. reflexivity.
  - intros Hdevice Hconfig. rewrite Hdevice, Hconfig. reflexivity.
  - intros Hid. rewrite Hid. reflexivity.
Qed.

(** X15. What a client is told about a fault is what the log says: a
    response with status "error" always has code 500, and its message is
    the text of the exception, which the handler has just logged at ERROR
    level behind its own prefix. *)
Theorem errors_are_logged_as_sent :
  forall (req : request) (w : world) (code : Z) (m : str),
    wire (snd (handle req w)) =
      wire w ++
      json_response code
        (JDict [ (lit "status", JStr (lit "error")); (lit "message", JStr m) ]) ->
    code = 500 /\
    exists lines prefix,
      logs (snd (handle req w)) = logs w ++ lines ++ [(ERROR, prefix ++ m)] /\
      In prefix error_prefixes.
Proof.
  intros req [g c l o] code m.
  unfold handle, do_GET, do_POST.
  destruct (command req);
    repeat match goal with
           | |- context [if str_eqb ?a ?b then _ else _] =>
               destruct (str_eqb a b)
           end;
    exec; repeat branch; exec;
    repeat rewrite <- app_assoc; cbn [app];
    intros Hwire; apply app_inv_head in Hwire;
    try discriminate Hwire.
  all: injection Hwire as <- <-.
  all: split; [reflexivity|].
  all: first [ exists []; eexists; split;
               [reflexivity | cbn [error_prefixes In]; auto]
             | eexists [_]; eexists; split;
               [reflexivity | cbn [error_prefixes In]; auto] ].
Qed.

End Properties.

(** ** Worked runs *)

#[local] Existing Instance null_runtime.

(** Scenario 2: the structural rule rejects "x" even on a draw the policy
    would accept. *)
Lemma validate_x_rejected :
  acceptance_policy lucky = true /\
  wire (snd (handle_validation validate_x lucky)) =
    json_response 400
      (JDict [ (lit "status", JStr (lit "failure"));
               (lit "message", JStr (lit "Configuration validation failed"));
               (lit "configVersion", JStr (lit "x")) ]).
Proof.
  split; [reflexivity|].
  apply (validate_rejects_short_version validate_x
           [ (lit "configVersion", JStr (lit "x")) ] lucky).
  - reflexivity.
  - right. exists (lit "x"). split; [reflexivity | unfold lit; cbn; lia].
Defined.

(** Scenario 1: "v1.2.3" with the policy forced to accept. *)
Lemma validate_v123_accepted :
  wire (snd (handle_validation validate_v123 lucky)) =
    json_response 200
      (JDict [ (lit "status", JStr (lit "success"));
               (lit "message", JStr (lit "Configuration validation passed"));
               (lit "configVersion", JStr (lit "v1.2.3")) ]).
Proof.
  apply (validate_follows_policy validate_v123
           [ (lit "configVersion", JStr (lit "v1.2.3")) ] (lit "v1.2.3") lucky).
  - reflexivity.
  - reflexivity.
  - unfold lit; cbn; lia.
Defined.

(** Scenario 3: dev-42 with the delivery forced to fail. *)
Lemma send_dev42_fails :
  wire (snd (handle_send_config send_dev42 unlucky)) =
    json_response 500
      (JDict [ (lit "status", JStr (lit "failure"));
               (lit "message",
                JStr (lit "Failed to send config to device dev-42"));
               (lit "deviceId", JStr (lit "dev-42")) ]).
Proof.
  apply (send_config_reports_delivery send_dev42
           [ (lit "deviceId", JStr (lit "dev-42"));
             (lit "config", JDict [ (lit "name", JStr (lit "net-profile-1")) ]) ]
           [ (lit "name", JStr (lit "net-profile-1")) ] unlucky).
  - reflexivity.
  - reflexivity.
  - reflexivity.
Defined.

(** Scenario 4: the status of "r-1" in a fresh process. *)
Lemma status_r1_shape :
  exists (phase : str) (step devices : Z),
    wire (snd (handle_rollout_status status_r1 counting)) =
      json_response 200
        (JDict [ (lit "rolloutId", JStr (lit "r-1"));
                 (lit "phase", JStr phase);
                 (lit "currentStep", JInt step);
                 (lit "totalSteps", JInt 3);
                 (lit "completedDevices", JInt devices);
                 (lit "totalDevices", JInt 10);
                 (lit "message", JStr (lit "Rollout r-1 is progressing")) ]) /\
    In phase phases /\
    1 <= step <= 3 /\
    1 <= devices <= 10.
Proof.
  apply (rollout_status_record_shape status_r1
           [ (lit "rolloutId", JStr (lit "r-1")) ] (lit "r-1") counting).
  - reflexivity.
  - reflexivity.
Defined.

(** A rollout drawn as Completed, at step 1 with one device of ten done,
    is still reported as progressing. *)
Lemma completed_rollout_is_progressing :
  wire (snd (handle_rollout_status status_r1 completing)) =
    json_response 200
      (rollout_record (JStr (lit "r-1")) (lit "Completed") 1 1) /\
  exists (d record : dict),
    body status_r1 = Ok (JDict d) /\
    rollout_record (JStr (lit "r-1")) (lit "Completed") 1 1 = JDict record /\
    dict_get record (lit "phase") = Some (JStr (drawn_phase completing)) /\
    dict_get record (lit "message") =
      Some (JStr (lit "Rollout "
                  ++ py_str (get_or d (lit "rolloutId") unknown)
                  ++ lit " is progressing")).
Proof.
  split; [reflexivity|].
  apply (rollout_status_message status_r1 completing
           (rollout_record (JStr (lit "r-1")) (lit "Completed") 1 1)).
  reflexivity.
Defined.

(** A body with every field and the empty body, met by the same draw,
    fare alike. *)
Lemma send_config_bodies_fare_alike :
  exists code status rest1 rest2,
    wire (snd (handle_send_config send_dev42 lucky)) =
      json_response code (JDict ((lit "status", JStr status) :: rest1)) /\
    wire (snd (handle_send_config send_empty lucky)) =
      json_response code (JDict ((lit "status", JStr status) :: rest2)) /\
    code = 200 /\
    status = lit "success".
Proof.
  apply (proj1 send_config_outcome_ignores_body send_dev42 send_empty
           [ (lit "deviceId", JStr (lit "dev-42"));
             (lit "config", JDict [ (lit "name", JStr (lit "net-profile-1")) ]) ]
           []
           [ (lit "name", JStr (lit "net-profile-1")) ]
           []
           lucky lucky);
    reflexivity.
Defined.

(** GET /unknown-path: 404 and nothing else. *)
Lemma unknown_path_404 :
  handle {| command := GET; path := lit "/unknown-path";
            body := Raise (RequestFault []) |} lucky =
    (Ok tt, {| rng := rng lucky; clock := 0; logs := [];
               wire := [SendResponse 404; EndHeaders] |}).
Proof.
  apply (proj1 (unknown_paths_get_404
                  {| command := GET; path := lit "/unknown-path";
                     body := Raise (RequestFault []) |} lucky)).
  intros Hin. apply recognized_spec in Hin. discriminate Hin.
Defined.

(** Two consecutive status requests for "r-1" in one process: the first
    reports 3 devices done, the second 6. *)
Lemma rollout_status_not_idempotent :
  fst (get_rollout_status (JStr (lit "r-1")) counting) =
    Ok (rollout_record (JStr (lit "r-1")) (lit "Progressing") 2 3) /\
  fst (get_rollout_status (JStr (lit "r-1"))
         (snd (get_rollout_status (JStr (lit "r-1")) counting))) =
    Ok (rollout_record (JStr (lit "r-1")) (lit "Progressing") 2 6) /\
  fst (get_rollout_status (JStr (lit "r-1")) counting) <>
    fst (get_rollout_status (JStr (lit "r-1"))
           (snd (get_rollout_status (JStr (lit "r-1")) counting))) /\
  wire (snd (handle_rollout_status status_r1
               (snd (handle_rollout_status status_r1 counting)))) =
    json_response 200
      (rollout_record (JStr (lit "r-1")) (lit "Progressing") 2 3)
    ++ json_response 200
         (rollout_record (JStr (lit "r-1")) (lit "Progressing") 2 6).
Proof.
  split; [reflexivity|]. split; [reflexivity|]. split; [|reflexivity].
  intros H. vm_compute in H. discriminate H.
Qed.

(** The 200 response of /rollout-status has no "status" field. *)
Lemma rollout_status_has_no_status_field :
  exists record,
    wire (snd (handle_rollout_status status_r1 counting)) =
      json_response 200 (JDict record) /\
    dict_get record (lit "status") = None.
Proof.
  eexists. split; reflexivity.
Qed.

(** A dispatch drawn to fail: two seconds, one ERROR line, nothing sent. *)
Lemma dispatch_unlucky :
  send_config_to_device (JStr (lit "dev-42")) (JDict []) unlucky =
    (Ok false,
     {| rng := fun _ => 2 ^ 53 - 1; clock := 2;
        logs := [ (ERROR, [226; 338]%N
                          ++ lit " Failed to apply config to device dev-42") ];
        wire := [] |}).
Proof. exact (dispatch_is_one_policy_draw (JStr (lit "dev-42")) (JDict []) unlucky). Defined.

(** A body that is not JSON. *)
Lemma validate_garbage_is_a_500 :
  handle_validation validate_garbage lucky =
    (Ok tt,
     {| rng := rng lucky; clock := 0;
        logs := [ (ERROR, lit "Validation error: " ++ exn_str not_json) ];
        wire :=
          json_response 500
            (JDict [ (lit "status", JStr (lit "error"));
                     (lit "message", JStr (exn_str not_json)) ]) |}).
Proof.
  apply (unusable_body_is_a_500 validate_garbage not_json lucky).
  reflexivity.
Defined.

(** configVersion 5. *)
Lemma validate_5_is_a_500 :
  wire (snd (handle_validation validate_5 lucky)) =
    json_response 500
      (JDict [ (lit "status", JStr (lit "error"));
               (lit "message", JStr (lit "object of type 'int' has no len()")) ]).
Proof.
  apply (validate_unsized_version_is_a_500 validate_5
           [ (lit "configVersion", JInt 5) ] (JInt 5) lucky).
  - reflexivity.
  - reflexivity.
  - right. exists 5. split; [discriminate | reflexivity].
Defined.

(** Completed at step 1 with one device done is among the records. *)
Lemma completed_at_step_1_is_drawn :
  exists w : world,
    fst (get_rollout_status (JStr (lit "r-1")) w) =
      Ok (rollout_record (JStr (lit "r-1")) (lit "Completed") 1 1).
Proof.
  apply (every_status_record_is_drawn (JStr (lit "r-1")) (lit "Completed") 1 1).
  - right. right. left. reflexivity.
  - lia.
  - lia.
Defined.

(** A fresh process and one that has been running, both about to draw 0,
    treat dev-42 alike. *)
Lemma fresh_and_busy_fare_alike :
  fst (handle send_dev42 lucky) = fst (handle send_dev42 busy) /\
  rng (snd (handle send_dev42 lucky)) = rng (snd (handle send_dev42 busy)) /\
  exists (seconds : Z) (lines : list (level * str)) (response : list out_event),
    clock (snd (handle send_dev42 lucky)) = clock lucky + seconds /\
    clock (snd (handle send_dev42 busy)) = clock busy + seconds /\
    logs (snd (handle send_dev42 lucky)) = logs lucky ++ lines /\
    logs (snd (handle send_dev42 busy)) = logs busy ++ lines /\
    wire (snd (handle send_dev42 lucky)) = wire lucky ++ response /\
    wire (snd (handle send_dev42 busy)) = wire busy ++ response.
Proof.
  apply (requests_share_only_the_generator send_dev42 lucky busy).
  reflexivity.
Defined.

(** Three requests in a row: a rejection, a delivery, a 404. *)
Lemma three_requests_three_answers :
  wire (snd (handle_each [validate_x; send_dev42; get_unknown] lucky)) =
    json_response 400
      (JDict [ (lit "status", JStr (lit "failure"));
               (lit "message", JStr (lit "Configuration validation failed"));
               (lit "configVersion", JStr (lit "x")) ])
    ++ json_response 200
         (JDict [ (lit "status", JStr (lit "success"));
                  (lit "message", JStr (lit "Configuration sent to device dev-42"));
                  (lit "deviceId", JStr (lit "dev-42"));
                  (lit "configName", JStr (lit "net-profile-1")) ])
    ++ [SendResponse 404; EndHeaders] /\
  clock (snd (handle_each [validate_x; send_dev42; get_unknown] lucky)) = 3 /\
  (fst (handle_each [validate_x; send_dev42; get_unknown] lucky) = Ok tt /\
   (exists responses,
       Forall2 answers [validate_x; send_dev42; get_unknown] responses /\
       wire (snd (handle_each [validate_x; send_dev42; get_unknown] lucky)) =
         wire lucky ++ concat responses) /\
   clock lucky
     <= clock (snd (handle_each [validate_x; send_dev42; get_unknown] lucky))
     <= clock lucky + 2 * Z.of_nat (length [validate_x; send_dev42; get_unknown]) /\
   exists lines,
     logs (snd (handle_each [validate_x; send_dev42; get_unknown] lucky)) =
       logs lucky ++ lines).
Proof.
  split; [reflexivity|]. split; [reflexivity|].
  exact (handle_each_answers_in_order [validate_x; send_dev42; get_unknown] lucky).
Defined.

(** The 200 for "v1.2.3" came from a long enough version and a [true]
    draw. *)
Lemma validate_v123_was_long_enough :
  exists (d : dict) (v : json) (n : Z),
    body validate_v123 = Ok (JDict d) /\
    dict_get d (lit "configVersion") = Some v /\
    py_len v = Ok n /\
    3 <= n /\
    acceptance_policy lucky = true /\
    JDict [ (lit "status", JStr (lit "success"));
            (lit "message", JStr (lit "Configuration validation passed"));
            (lit "configVersion", JStr (lit "v1.2.3")) ] =
      JDict [ (lit "status", JStr (lit "success"));
              (lit "message", JStr (lit "Configuration validation passed"));
              (lit "configVersion", v) ].
Proof.
  apply (validate_accepts_only_long_versions validate_v123 lucky
           (JDict [ (lit "status", JStr (lit "success"));
                    (lit "message", JStr (lit "Configuration validation passed"));
                    (lit "configVersion", JStr (lit "v1.2.3")) ])).
  reflexivity.
Defined.

(** "config": null. *)
Lemma send_null_config_is_a_500 :
  handle_send_config send_null_config lucky =
    (Ok tt,
     {| rng := rng lucky; clock := 0;
        logs :=
          [ (ERROR,
             lit "Send config error: 'NoneType' object has no attribute 'get'") ];
        wire :=
          json_response 500
            (JDict [ (lit "status", JStr (lit "error"));
                     (lit "message",
                      JStr (lit "'NoneType' object has no attribute 'get'")) ]) |}).
Proof.
  apply (send_config_needs_an_object_config send_null_config
           [ (lit "deviceId", JStr (lit "dev-42")); (lit "config", JNull) ]
           JNull lucky);
    reflexivity.
Defined.

(** Metrics half way up every range: 45.0, 55.0, 300.0, 2.5, 3000.0 and a
    little more for the later draws. *)
Lemma metrics_halfway :
  wire (snd (handle get_metrics halfway)) =
    json_response 200
      (JDict
         [ (lit "cpu_usage", JFloat (S754_finite false 6333186975989760 (-47)));
           (lit "memory_usage", JFloat (S754_finite false 7740561859543041 (-47)));
           (lit "response_time", JFloat (S754_finite false 5277655813324802 (-44)));
           (lit "error_rate", JFloat (S754_finite false 5629499534213124 (-51)));
           (lit "throughput", JFloat (S754_finite false 6597069766656004 (-41)));
           (lit "active_rollouts", JInt 2);
           (lit "devices_configured", JInt 184) ]) /\
  1 <= 1 + rng halfway 5%nat mod 10 <= 10 /\
  50 <= 50 + rng halfway 6%nat mod 151 <= 200.
Proof.
  destruct (metrics_gauges get_metrics halfway eq_refl eq_refl)
    as (Hrun & Hactive & Hdevices).
  rewrite Hrun. split; [reflexivity|]. split; assumption.
Defined.

(** The rejection of "x" costs a second and no draw. *)
Lemma validate_x_costs_a_second :
  clock (snd (handle validate_x lucky)) = 1 /\
  rng (snd (handle validate_x lucky)) = rng lucky.
Proof. exact (request_cost validate_x lucky). Defined.

(** The 200 for dev-42 came from a dispatch and a [true] draw. *)
Lemma send_dev42_was_delivered :
  exists (d c : dict),
    body send_dev42 = Ok (JDict d) /\
    config_of d = Some c /\
    delivery_policy lucky = true /\
    JDict [ (lit "status", JStr (lit "success"));
            (lit "message", JStr (lit "Configuration sent to device dev-42"));
            (lit "deviceId", JStr (lit "dev-42"));
            (lit "configName", JStr (lit "net-profile-1")) ] =
      JDict [ (lit "status", JStr (lit "success"));
              (lit "message",
               JStr (lit "Configuration sent to device "
                     ++ py_str (get_or d (lit "deviceId") unknown)));
              (lit "deviceId", get_or d (lit "deviceId") unknown);
              (lit "configName", get_or c (lit "name") unknown) ].
Proof.
  apply (send_config_succeeds_only_on_delivery send_dev42 lucky
           (JDict [ (lit "status", JStr (lit "success"));
                    (lit "message", JStr (lit "Configuration sent to device dev-42"));
                    (lit "deviceId", JStr (lit "dev-42"));
                    (lit "configName", JStr (lit "net-profile-1")) ])).
  reflexivity.
Defined.

(** "v1.2.3" turned down by the policy gets the payload "x" got from the
    structural rule, but for the version. *)
Lemma validate_v123_rejected_by_policy :
  exists d : dict,
    body validate_v123 = Ok (JDict d) /\
    JDict [ (lit "status", JStr (lit "failure"));
            (lit "message", JStr (lit "Configuration validation failed"));
            (lit "configVersion", JStr (lit "v1.2.3")) ] =
      JDict [ (lit "status", JStr (lit "failure"));
              (lit "message", JStr (lit "Configuration validation failed"));
              (lit "configVersion", get_or d (lit "configVersion") unknown) ] /\
    (passes_structure d = false \/ acceptance_policy unlucky = false).
Proof.
  apply (validate_rejections_look_alike validate_v123 unlucky
           (JDict [ (lit "status", JStr (lit "failure"));
                    (lit "message", JStr (lit "Configuration validation failed"));
                    (lit "configVersion", JStr (lit "v1.2.3")) ])).
  reflexivity.
Defined.

(** POST /metrics is off the endpoints; GET /metrics always answers 200. *)
Lemma post_metrics_is_a_404 :
  wire (snd (handle (post "/metrics" JNull) lucky)) =
    [SendResponse 404; EndHeaders] /\
  exists response,
    wire (snd (handle (post "/metrics" JNull) lucky)) = wire lucky ++ response /\
    ((~ In (POST, lit "/metrics") endpoints /\
      response = [SendResponse 404; EndHeaders])
     \/
     (In (POST, lit "/metrics") endpoints /\
      exists code payload,
        response = json_response code payload /\
        (code = 200 \/ code = 500 \/
         (code = 400 /\ lit "/metrics" = lit "/validate")))).
Proof.
  split; [reflexivity|].
  exact (response_codes_by_endpoint (post "/metrics" JNull) lucky).
Defined.

(** Two /validate bodies that differ in everything but the configVersion. *)
Lemma validate_ignores_other_fields :
  handle_validation validate_v123 unlucky =
    handle_validation
      (post "/validate"
         (JDict [ (lit "name", JStr (lit "net-profile-1"));
                  (lit "configVersion", JStr (lit "v1.2.3"));
                  (lit "force", JBool true) ]))
      unlucky.
Proof.
  refine (proj1 (handlers_read_only_their_fields validate_v123
           (post "/validate"
              (JDict [ (lit "name", JStr (lit "net-profile-1"));
                       (lit "configVersion", JStr (lit "v1.2.3"));
                       (lit "force", JBool true) ]))
           [ (lit "configVersion", JStr (lit "v1.2.3")) ]
           [ (lit "name", JStr (lit "net-profile-1"));
             (lit "configVersion", JStr (lit "v1.2.3"));
             (lit "force", JBool true) ]
           unlucky eq_refl eq_refl) _).
  reflexivity.
Defined.

(** The fault of configVersion 5, as sent and as logged. *)
Lemma validate_5_fault_is_logged :
  500 = 500 /\
  exists lines prefix,
    logs (snd (handle validate_5 lucky)) =
      logs lucky ++ lines
      ++ [(ERROR, prefix ++ lit "object of type 'int' has no len()")] /\
    In prefix error_prefixes.
Proof.
  apply (errors_are_logged_as_sent validate_5 lucky 500
           (lit "object of type 'int' has no len()")).
  reflexivity.
Defined.

(** GET /unknown-path reaches the class and gets the bare 404. *)
Lemma get_unknown_line_is_a_404 :
  handle_one_request get_unknown_line =
    ByClass (handle {| command := GET; path := lit "/unknown-path";
                       body := Raise (RequestFault []) |}) /\
  handle {| command := GET; path := lit "/unknown-path";
            body := Raise (RequestFault []) |} lucky =
    (Ok tt, {| rng := rng lucky; clock := 0; logs := [];
               wire := [SendResponse 404; EndHeaders] |}).
Proof.
  destruct (proj1 (requests_off_the_endpoints get_unknown_line lucky)
              GET eq_refl) as (Hclass & Hoff & _).
  split; [exact Hclass|]. apply Hoff.
  intros Hin.
  apply (recognized_spec {| command := GET; path := lit "/unknown-path";
                            body := Raise (RequestFault []) |}) in Hin.
  discriminate Hin.
Defined.

(** PUT /nowhere names no endpoint, yet it is not answered 404 with an
    empty body: the class has no [do_PUT], and the base class sends its
    501 with an HTML page. *)
Lemma put_nowhere_is_a_501 :
  ~ is_endpoint put_nowhere /\
  handle_one_request put_nowhere =
    ByBaseClass {| reply_code := 501;
                   reply_content_type := lit "text/html;charset=utf-8";
                   reply_has_body := true |} /\
  ~ bare_404 (handle_one_request put_nowhere).
Proof.
  split; [|split].
  - intros (m & Hname & _). destruct m; vm_compute in Hname; discriminate Hname.
  - reflexivity.
  - intros (run & Hrun & _).
    change (handle_one_request put_nowhere)
      with (ByBaseClass {| reply_code := 501;
                           reply_content_type := lit "text/html;charset=utf-8";
                           reply_has_body := true |}) in Hrun.
    discriminate Hrun.
Qed.
